(** * OppAnalysis: the opportunity dashboard's data pipeline (src/opp.py)

    A shallow embedding of the core of [opp.py]: the category mapper
    [map_lob] over the static table [LOB_MAPPING], the producer resolver
    [get_producer_names], the report generator [connect_sf_and_query], the
    grouping done before the two charts and the page script around them
    (authentication, notices, charts and tables).

    Conventions.
    - A Python [str] is a [string]; one [ascii] stands for one character
      (code points below 256).
    - A value that is "a str or None" is an [option string]; [None] is Python's
      [None].
    - A record returned by the CRM is a dict read by key: each key is missing,
      present with JSON null, or present with a value ([field]).
    - The Salesforce connection is an oracle; the queries sent to it are logged
      in the session, and exceptions are explicit (monad [M]). *)

From Stdlib Require Import ZArith Ascii String DecimalString.
From stdpp Require Import gmap strings list fin_maps sorting.

Local Open Scope string_scope.
Local Open Scope Z_scope.
Local Open Scope list_scope.

(** ** Python primitives used by the program *)

Module Py.

(** [ch.isspace()] for the characters below U+0100: TAB..CR, FS..US, SPACE,
    NEL (U+0085) and NBSP (U+00A0). *)
Definition isspace (ch : ascii) : bool :=
  let n := nat_of_ascii ch in
  ((9 <=? n)%nat && (n <=? 13)%nat) || ((28 <=? n)%nat && (n <=? 32)%nat)
  || (n =? 133)%nat || (n =? 160)%nat.

(** [s.lstrip()] *)
Fixpoint lstrip (s : string) : string :=
  match s with
  | EmptyString => EmptyString
  | String ch rest => if isspace ch then lstrip rest else s
  end.

(** [s.rstrip()] *)
Fixpoint rstrip (s : string) : string :=
  match s with
  | EmptyString => EmptyString
  | String ch rest =>
      match rstrip rest with
      | EmptyString => if isspace ch then EmptyString else String ch EmptyString
      | rest' => String ch rest'
      end
  end.

(** [s.strip()] *)
Definition strip (s : string) : string := lstrip (rstrip s).

(** [sep.join(parts)] *)
Fixpoint join (sep : string) (parts : list string) : string :=
  match parts with
  | [] => ""
  | [p] => p
  | p :: rest => p +:+ sep +:+ join sep rest
  end.

(** The text an f-string field [{v}] produces for a value that is a str or
    None: [format(None, "")] is ["None"]. *)
Definition format (v : option string) : string :=
  match v with
  | Some s => s
  | None => "None"
  end.

(** Truth value of a str-or-None: None and the empty string are false. *)
Definition truthy (v : option string) : bool :=
  match v with
  | Some (String _ _) => true
  | _ => false
  end.

(** [not s] for a str. *)
Definition is_empty (s : string) : bool :=
  match s with
  | EmptyString => true
  | String _ _ => false
  end.

(** [s.zfill(width)] for a string of digits: zeros are added on the left up
    to [width] characters. *)
Fixpoint zfill (width : nat) (s : string) : string :=
  match width with
  | O => s
  | S w => if (String.length s <? width)%nat then String "0" (zfill w s) else s
  end.

(** [str(n)] for a natural number. *)
Definition str_nat (n : nat) : string := NilZero.string_of_uint (Nat.to_uint n).

End Py.

(** ** [datetime.date] and [strftime] *)

(** A [datetime.date]; the class keeps [1 <= year <= 9999], [1 <= month <= 12]
    and the day within the month. *)
Record date := Date { year : nat; month : nat; day : nat }.

(** [d.strftime(fmt)] for the directives the program uses: [%Y] (the year in
    decimal, as the C library of Linux prints it: four digits from the year
    1000 on, no leading zeros below), [%m] and [%d] (zero-padded to two
    digits) and [%%]. Every other character is copied. *)
Definition strftime_directive (d : date) (c : ascii) : string :=
  if Ascii.eqb c "Y" then Py.str_nat (year d)
  else if Ascii.eqb c "m" then Py.zfill 2 (Py.str_nat (month d))
  else if Ascii.eqb c "d" then Py.zfill 2 (Py.str_nat (day d))
  else if Ascii.eqb c "%" then "%"
  else String "%" (String c "").

Fixpoint strftime (d : date) (fmt : string) : string :=
  match fmt with
  | EmptyString => EmptyString
  | String c rest =>
      if Ascii.eqb c "%" then
        match rest with
        | EmptyString => String c EmptyString
        | String c' rest' => strftime_directive d c' +:+ strftime d rest'
        end
      else String c (strftime d rest)
  end.

(** ** Category mapper *)

(** A dict display [{k1: v1, k2: v2, ...}]: the items are inserted from left to
    right, a later item replacing an earlier one with the same key. *)
Definition dict_literal {V} (items : list (string * V)) : gmap string V :=
  foldl (λ d kv, <[kv.1 := kv.2]> d) ∅ items.

Definition LOB_MAPPING : gmap string string := dict_literal [
  (* HOMEOWNERS *)
  ("Homeowners", "Homeowners");
  ("Dwelling Fire - PL", "Homeowners");
  ("Mobile Homeowners", "Homeowners");
  ("Wind Only - PL", "Homeowners");
  (* PERSONAL AUTO *)
  ("Personal Auto", "Personal Auto");
  ("Motorcycle/ATV", "Personal Auto");
  ("Motorhome", "Personal Auto");
  ("Recreational Vehicle", "Personal Auto");
  ("Travel Trailer", "Personal Auto");
  ("Golf Cart", "Personal Auto");
  (* BOAT *)
  ("Watercraft", "Boat");
  ("Charter Watercraft", "Boat");
  ("Yacht", "Boat");
  ("Burnboat", "Boat");
  ("Boat", "Boat");
  (* UMBRELLA *)
  ("Umbrella", "Umbrella");
  ("Commercial Umbrella", "Umbrella");
  (* INLAND MARINE *)
  ("Inland Marine - PL", "Inland Marine");
  ("Inland Marine - CL", "Inland Marine");
  (* COMMERCIAL *)
  ("Commercial Package", "Commercial");
  ("Builders Risk/Installation - PL", "Commercial");
  ("Builders Risk/Installation - CL", "Commercial");
  ("Business Owners", "Commercial");
  ("Commercial Auto", "Commercial");
  ("Commercial Property", "Commercial");
  ("Directors & Officers", "Commercial");
  ("Employment Practice Liability", "Commercial");
  ("Errors & Omissions", "Commercial");
  ("General Liability", "Commercial");
  ("Liquor Liability", "Commercial");
  ("Marine Package", "Commercial");
  ("Wind Only - CL", "Commercial");
  (* EVERYTHING ELSE *)
  ("Flood - PL", "Other");
  ("Personal Liability", "Other");
  ("Life", "Other")
].

(** [LOB_MAPPING.get(type_value, "Other")]. The callers pass what
    [rec.get("Type", "Other")] gave them, a str or None; None is hashable and
    is not a key of the table. *)
Definition map_lob (type_value : option string) : string :=
  match type_value with
  | Some s => default "Other" (LOB_MAPPING !! s)
  | None => "Other"
  end.

(** ** Records returned by the CRM *)

(** One key of a result record: the key is missing from the dict, present with
    JSON null (Python None), or present with a value. *)
Inductive field (A : Type) : Type :=
  | Missing
  | Null
  | Val (a : A).
Arguments Missing {A}.
Arguments Null {A}.
Arguments Val {A} a.

(** [rec.get(key)]: None when the key is missing or null. *)
Definition get {A} (f : field A) : option A :=
  match f with
  | Val a => Some a
  | _ => None
  end.

(** [rec.get(key, dflt)]: the default replaces a missing key only; a key that
    is present with null gives None. *)
Definition get_default {A} (f : field A) (dflt : A) : option A :=
  match f with
  | Missing => Some dflt
  | Null => None
  | Val a => Some a
  end.

(** The [Owner] relationship of an opportunity ([Owner.Name]). *)
Record owner_rel := { Name : field string }.

(** The [InternalUser] relationship of a producer. *)
Record user_rel := { FirstName : field string; LastName : field string }.

(** A result record, restricted to the keys the program reads. [oppCount] is
    the alias of [COUNT(Id)], an integer whenever the key is there. *)
Record sobject := {
  Id : field string;
  Type_ : field string;
  oppCount : option Z;
  Producer__c : field string;
  Owner : field owner_rel;
  InternalUser : field user_rel
}.

(** [rec.get("Owner") or {}]: a missing, null or empty relationship is read as
    the empty dict. *)
Definition owner_or_empty (f : field owner_rel) : owner_rel :=
  match f with
  | Val o => o
  | _ => {| Name := Missing |}
  end.

(** [rec.get("InternalUser") or {}] *)
Definition user_or_empty (f : field user_rel) : user_rel :=
  match f with
  | Val u => u
  | _ => {| FirstName := Missing; LastName := Missing |}
  end.

(** ** Output tables *)

(** A row of [lob_df]. *)
Module LOBRow.
Record t := {
  Type_ : option string;
  LOB_Category : string;
  Count : Z
}.
End LOBRow.

(** A row of [producer_df]. *)
Module ProducerRow.
Record t := {
  Producer : option string;
  Type_ : option string;
  LOB_Category : string;
  Count : Z
}.
End ProducerRow.

(** [pd.DataFrame(rows)] keeps the rows in order; [pd.DataFrame()] and
    [pd.DataFrame([])] are the empty table. *)
Abbreviation DataFrame R := (list R) (only parsing).
Definition empty_frame {R} : DataFrame R := [].

(** ** Effects: the connection, the query log, exceptions *)

(** An exception, with the text [str(e)] gives. *)
Record exn := Exception { message : string }.

(** An authenticated connection. [query_all history q] is what
    [sf.query_all(q)] does after the queries of [history] were sent: it raises
    or returns the list under ["records"]. *)
Record Salesforce := { query_all : list string → string → exn + list sobject }.

(** The state a run works on: [st.session_state.sf] (unset when authentication
    failed), the queries sent so far and the messages given to [st.error]. *)
Record session := {
  sf : option Salesforce;
  calls : list string;
  errors : list string
}.

(** A computation that reads and extends the session and either raises or
    returns. *)
Definition M (A : Type) : Type := session → (exn + A) * session.

#[global] Instance M_ret : MRet M := λ A a σ, (inr a, σ).

#[global] Instance M_bind : MBind M := λ A B k m σ,
  match m σ with
  | (inl e, σ') => (inl e, σ')
  | (inr a, σ') => k a σ'
  end.

(** [try: body except Exception as e: handler(e)] *)
Definition try_except {A} (body : M A) (handler : exn → M A) : M A := λ σ,
  match body σ with
  | (inl e, σ') => handler e σ'
  | (inr a, σ') => (inr a, σ')
  end.

(** [st.session_state.sf]: AttributeError when the attribute was never set.
    (The text stands for the message of that exception; nothing below depends
    on it.) *)
Definition session_state_sf : M Salesforce := λ σ,
  match sf σ with
  | Some conn => (inr conn, σ)
  | None => (inl (Exception "st.session_state has no attribute 'sf'"), σ)
  end.

(** The session after the queries [qs] were sent. *)
Definition sent (σ : session) (qs : list string) : session :=
  {| sf := sf σ; calls := calls σ ++ qs; errors := errors σ |}.

(** [sf.query_all(query)]: the query joins the log, the connection answers. *)
Definition sf_query_all (conn : Salesforce) (query : string) : M (list sobject) := λ σ,
  (query_all conn (calls σ) query, sent σ [query]).

(** [st.error(msg)] *)
Definition st_error (msg : string) : M unit := λ σ,
  (inr tt, {| sf := sf σ; calls := calls σ; errors := errors σ ++ [msg] |}).

(** ** Producer resolver *)

Definition NAME_NOT_PROVIDED : string := "Name Not Provided".

(** The SOQL text of the batched lookup. *)
Definition producer_query (id_list : string) : string :=
  "
        SELECT Id, InternalUser.FirstName, InternalUser.LastName
        FROM Producer
        WHERE Id IN (" +:+ id_list +:+ ")
    ".

(** The display name computed in the body of the loop over the records. *)
Definition full_name (rec : sobject) : string :=
  let internal_user := user_or_empty (InternalUser rec) in
  let first := get_default (FirstName internal_user) "" in
  let last := get_default (LastName internal_user) "" in
  let full_name := Py.strip (Py.format first +:+ " " +:+ Py.format last) in
  if Py.is_empty full_name then NAME_NOT_PROVIDED else full_name.

(** The loop [for rec in results["records"]: ... mapping[pid] = full_name]. The
    key is [rec.get("Id")], a str or None. *)
Definition producer_mapping (records : list sobject) : gmap (option string) string :=
  foldl (λ mapping rec, <[get (Id rec) := full_name rec]> mapping) ∅ records.

Definition get_producer_names (conn : Salesforce) (producer_ids : list string)
    : M (gmap (option string) string) :=
  match producer_ids with
  | [] => mret ∅
  | _ =>
      let id_list := Py.join ", " ((λ pid, "'" +:+ pid +:+ "'") <$> producer_ids) in
      let query := producer_query id_list in
      results ← sf_query_all conn query;
      mret (producer_mapping results)
  end.

(** ** Report generation *)

(** The three aggregation queries, as functions of the date filter. *)
Definition type_query (date_filter : string) : string :=
  "
            SELECT Type, COUNT(Id) oppCount
            FROM Opportunity
            WHERE " +:+ date_filter +:+ "
            GROUP BY Type
        ".

Definition query_with_producer (date_filter : string) : string :=
  "
            SELECT Producer__c, Type, COUNT(Id) oppCount
            FROM Opportunity
            WHERE " +:+ date_filter +:+ " AND Producer__c != null
            GROUP BY Producer__c, Type
        ".

Definition query_without_producer (date_filter : string) : string :=
  "
            SELECT Owner.Name, Type, COUNT(Id) oppCount
            FROM Opportunity
            WHERE " +:+ date_filter +:+ " AND Producer__c = null
            GROUP BY Owner.Name, Type
        ".

Definition start_date_str (start_date : date) : string :=
  strftime start_date "%Y-%m-%dT00:00:00Z".

Definition end_date_str (end_date : date) : string :=
  strftime end_date "%Y-%m-%dT23:59:59Z".

Definition date_filter (start_date end_date : date) : string :=
  "CreatedDate >= " +:+ start_date_str start_date
  +:+ " AND CreatedDate <= " +:+ end_date_str end_date.

(** Body of the loop over the records of query 1. *)
Definition lob_row (rec : sobject) : LOBRow.t :=
  let picklist_val := get_default (Type_ rec) "Other" in
  let count_val := default 0 (oppCount rec) in
  let lob_category := map_lob picklist_val in
  {| LOBRow.Type_ := picklist_val;
     LOBRow.LOB_Category := lob_category;
     LOBRow.Count := count_val |}.

(** Body of the loop over the records of query 2. *)
Definition producer_row (producer_names : gmap (option string) string) (rec : sobject)
    : ProducerRow.t :=
  let prod_id := get (Producer__c rec) in
  let producer_name := default NAME_NOT_PROVIDED (producer_names !! prod_id) in
  let picklist_val := get_default (Type_ rec) "Other" in
  let count_val := default 0 (oppCount rec) in
  let lob_category := map_lob picklist_val in
  {| ProducerRow.Producer := Some producer_name;
     ProducerRow.Type_ := picklist_val;
     ProducerRow.LOB_Category := lob_category;
     ProducerRow.Count := count_val |}.

(** Body of the loop over the records of query 3. *)
Definition owner_row (rec : sobject) : ProducerRow.t :=
  let owner := owner_or_empty (Owner rec) in
  let producer_name := get_default (Name owner) NAME_NOT_PROVIDED in
  let picklist_val := get_default (Type_ rec) "Other" in
  let count_val := default 0 (oppCount rec) in
  let lob_category := map_lob picklist_val in
  {| ProducerRow.Producer := producer_name;
     ProducerRow.Type_ := picklist_val;
     ProducerRow.LOB_Category := lob_category;
     ProducerRow.Count := count_val |}.

(** [for rec in records: data.append(row(rec))], started from [data]. *)
Definition append_rows {R} (row : sobject → R) (data : list R) (records : list sobject)
    : list R :=
  foldl (λ data rec, data ++ [row rec]) data records.

(** The set comprehension over the records of query 2: the values of
    [Producer__c] that are true (neither None nor empty). *)
Definition producer_id_set (records : list sobject) : gset string :=
  list_to_set (omap (λ rec,
    if Py.truthy (get (Producer__c rec)) then get (Producer__c rec) else None) records).

(** The body of the [try] block. *)
Definition report_body (start_date end_date : date)
    : M (DataFrame LOBRow.t * DataFrame ProducerRow.t) :=
  conn ← session_state_sf;
  let date_filter := date_filter start_date end_date in
  (* Query 1: overall aggregation by Type. *)
  type_results ← sf_query_all conn (type_query date_filter);
  let lob_data := append_rows lob_row [] type_results in
  let lob_df : DataFrame LOBRow.t := lob_data in
  (* Query 2: opportunities with Producer__c populated. *)
  results_with_prod ← sf_query_all conn (query_with_producer date_filter);
  (* Query 3: opportunities without Producer__c. *)
  results_without_prod ← sf_query_all conn (query_without_producer date_filter);
  let producer_ids := producer_id_set results_with_prod in
  (* list(producer_ids): Python leaves the order of a set open and it changes
     from one process to the next; [elements] is one such order, and no
     property below depends on which. *)
  producer_names ← get_producer_names conn (elements producer_ids);
  let producer_data := append_rows (producer_row producer_names) [] results_with_prod in
  let producer_data := append_rows owner_row producer_data results_without_prod in
  let producer_df : DataFrame ProducerRow.t := producer_data in
  mret (lob_df, producer_df).

Definition connect_sf_and_query (start_date end_date : date)
    : M (DataFrame LOBRow.t * DataFrame ProducerRow.t) :=
  try_except (report_body start_date end_date)
    (λ e, st_error ("Error connecting to Salesforce: " +:+ message e);;
          mret (empty_frame, empty_frame)).

(** ** Presentation: the table behind the first chart *)

(** The sum of a column of integers. *)
Fixpoint Zsum (l : list Z) : Z :=
  match l with
  | [] => 0
  | x :: l => x + Zsum l
  end.

(** The values of a 64-bit signed integer. *)
Definition in_int64 (z : Z) : Prop := - 2 ^ 63 ≤ z < 2 ^ 63.

(** Arithmetic in 64-bit signed integers: the result modulo [2^64], taken
    between [-2^63] and [2^63 - 1]. *)
Definition wrap_int64 (z : Z) : Z := (z + 2 ^ 63) mod 2 ^ 64 - 2 ^ 63.

(** [lob_df.groupby("LOB_Category")["Count"].sum().reset_index()]: one row
    per distinct category, in increasing order of the category, holding the sum
    of [Count] over the rows of that category. The column [Count] of the frame
    is int64 (as it is when every count fits one) and the sum of a group is
    taken in int64: it wraps around. (No row is dropped for a missing key:
    [LOB_Category] is always a str.) *)
Definition groupby_sum (lob_df : DataFrame LOBRow.t) : list (string * Z) :=
  let keys := merge_sort String.le (remove_dups (LOBRow.LOB_Category <$> lob_df)) in
  (λ k, (k, wrap_int64 (Zsum (LOBRow.Count <$>
               filter (λ r, LOBRow.LOB_Category r = k) lob_df)))) <$> keys.

(** [if not lob_df.empty: grouped_lob = ...]; with an empty table the page
    shows a notice and no grouped table exists. *)
Definition grouped_lob (lob_df : DataFrame LOBRow.t) : option (list (string * Z)) :=
  match lob_df with
  | [] => None
  | _ => Some (groupby_sum lob_df)
  end.

(** ** The date range as the specification words it

    The specification reads the filter as [CreatedDate] within
    [[start_of(startDate), end_of(endDate)]], both ends included, on UTC day
    boundaries. These definitions follow those words; they are compared with
    [date_filter] below. *)







(** The seven normalized categories: the values of [LOB_MAPPING] and the
    default of [map_lob]. *)
Definition CATEGORIES : list string :=
  ["Homeowners"; "Personal Auto"; "Boat"; "Umbrella"; "Inland Marine";
   "Commercial"; "Other"].

(** The [i]-th query of a log was answered with an exception. *)
Definition call_failed (conn : Salesforce) (log : list string) (i : nat) : Prop :=
  ∃ q e, log !! i = Some q ∧ query_all conn (take i log) q = inl e.

(** Every query of [qs], sent in this order after [log], got an answer. *)
Inductive answered (conn : Salesforce) : list string → list string → Prop :=
  | answered_nil log : answered conn log []
  | answered_cons log q records qs :
      query_all conn log q = inr records →
      answered conn (log ++ [q]) qs →
      answered conn log (q :: qs).

(** ** Sample records and connections

    Used to run the program on concrete inputs. *)

(** A record of query 1: [{"Type": ..., "oppCount": ...}]. *)
Definition type_record (type : field string) (count : Z) : sobject :=
  {| Id := Missing; Type_ := type; oppCount := Some count;
     Producer__c := Missing; Owner := Missing; InternalUser := Missing |}.

(** A record of query 2: [{"Producer__c": ..., "Type": ..., "oppCount": ...}]. *)
Definition with_producer_record (producer : field string) (type : field string)
    (count : Z) : sobject :=
  {| Id := Missing; Type_ := type; oppCount := Some count;
     Producer__c := producer; Owner := Missing; InternalUser := Missing |}.

(** A record of query 3: [{"Owner": ..., "Type": ..., "oppCount": ...}]. *)
Definition without_producer_record (owner : field owner_rel) (type : field string)
    (count : Z) : sobject :=
  {| Id := Missing; Type_ := type; oppCount := Some count;
     Producer__c := Missing; Owner := owner; InternalUser := Missing |}.

(** A record of the producer lookup: [{"Id": ..., "InternalUser": ...}]. *)
Definition producer_record (id : field string) (user : field user_rel) : sobject :=
  {| Id := id; Type_ := Missing; oppCount := None;
     Producer__c := Missing; Owner := Missing; InternalUser := user |}.

(** A connection that gives its [n]-th answer to the [n]-th query sent, and no
    record once the script is over. *)
Definition scripted (answers : list (exn + list sobject)) : Salesforce :=
  {| query_all := λ history _, default (inr []) (answers !! length history) |}.

(** A fresh session on a connection. *)
Definition session_on (conn : Salesforce) : session :=
  {| sf := Some conn; calls := []; errors := [] |}.

(** A run in which every query is answered: two types in query 1, two
    producers in query 2 of which the lookup finds one, and in query 3 one
    named owner and one record with neither owner nor type. *)
Definition sample_answers : list (exn + list sobject) :=
  [inr [type_record (Val "Homeowners") 5; type_record (Val "Umbrella") 2];
   inr [with_producer_record (Val "P2") (Val "Yacht") 3;
        with_producer_record (Val "P9") (Val "Boat") 1];
   inr [without_producer_record (Val {| Name := Val "Alex Kim" |}) (Val "Life") 4;
        without_producer_record Null Null 1];
   inr [producer_record (Val "P2")
          (Val {| FirstName := Val "Jane"; LastName := Val "Doe" |})]].

(** A run whose producer lookup is refused, after three answers. *)
Definition lookup_failing_answers : list (exn + list sobject) :=
  [inr [type_record (Val "Homeowners") 5];
   inr [with_producer_record (Val "P1") (Val "Boat") 3];
   inr [without_producer_record (Val {| Name := Val "Alex Kim" |}) (Val "Life") 4];
   inl (Exception "REQUEST_LIMIT_EXCEEDED")].

(** A run whose second query is refused. *)
Definition failing_answers : list (exn + list sobject) :=
  [inr [type_record (Val "Homeowners") 5];
   inl (Exception "INVALID_SESSION_ID")].

(** ** Presentation: the table behind the second chart *)

(** The order of the group keys [(Producer, LOB_Category)]: by producer, then
    by category. *)
Definition key_le (a b : string * string) : Prop :=
  (a.1 ≠ b.1 ∧ String.le a.1 b.1) ∨ (a.1 = b.1 ∧ String.le a.2 b.2).

#[global] Instance key_le_dec : RelDecision key_le.
Proof. intros a b. unfold key_le. apply _. Defined.

(** The group key of a row. A row whose [Producer] is None has no group:
    [groupby] leaves out the rows with a missing key. *)
Definition producer_key (row : ProducerRow.t) : option (string * string) :=
  (λ producer, (producer, ProducerRow.LOB_Category row)) <$> ProducerRow.Producer row.

(** [producer_df.groupby(["Producer", "LOB_Category"])["Count"].sum()
    .reset_index()]; the sum of a group is taken in int64, as in
    [groupby_sum]. *)
Definition groupby2_sum (producer_df : DataFrame ProducerRow.t)
    : list (string * string * Z) :=
  let keys := merge_sort key_le (remove_dups (omap producer_key producer_df)) in
  (λ k, (k, wrap_int64 (Zsum (ProducerRow.Count <$>
               filter (λ row, producer_key row = Some k) producer_df)))) <$> keys.

(** [if not producer_df.empty: grouped_producer = ...] *)
Definition grouped_producer (producer_df : DataFrame ProducerRow.t)
    : option (list (string * string * Z)) :=
  match producer_df with
  | [] => None
  | _ => Some (groupby2_sum producer_df)
  end.

(** ** The page script

    Streamlit runs the whole file again at every interaction; only
    [st.session_state] lasts from one run to the next. *)

Module St.

(** [px.pie(grouped_lob, ...)] and [px.bar(grouped_producer, ...)]. *)
Inductive figure :=
  | pie (data : list (string * Z)) (title : string)
  | bar (data : list (string * string * Z)) (title : string).

(** The tables given to [st.dataframe]. *)
Inductive frame :=
  | grouped_lob_frame (rows : list (string * Z))
  | grouped_producer_frame (rows : list (string * string * Z))
  | lob_frame (rows : list LOBRow.t)
  | producer_frame (rows : list ProducerRow.t).

(** What a run writes on the page, in order. The messages of [st.error] are
    kept in the session ([errors]); [uncaught] is the report of an exception
    that ends the script. *)
Inductive element :=
  | success (msg : string)
  | info (msg : string)
  | title (text : string)
  | subheader (text : string)
  | plotly_chart (fig : figure)
  | dataframe (df : frame)
  | uncaught (e : exn).

End St.

(** What the user and the environment give to one run: whether the button was
    clicked, what [Salesforce(username=..., password=..., security_token=...)]
    does if it is called, the two dates of the sidebar and its checkbox. *)
Record widgets := {
  button : bool;
  login : exn + Salesforce;
  start_date_input : date;
  end_date_input : date;
  show_raw_data : bool
}.

(** [st.session_state]: the flag [sf_connected] (absent before the first run)
    and the session with the stored connection. *)
Record browser := {
  sf_connected : option bool;
  state : session
}.

(** The authentication section. The boolean tells whether the script goes on
    ([false] after [st.stop()]). *)
Definition authentication (w : widgets) (b : browser)
    : bool * list St.element * browser :=
  (* if "sf_connected" not in st.session_state: ... = False *)
  let connected := default false (sf_connected b) in
  if connected then (true, [], {| sf_connected := Some connected; state := state b |})
  else if button w then
    match login w with
    | inr conn =>
        (true, [St.success "Connected to Salesforce!"],
         {| sf_connected := Some true;
            state := {| sf := Some conn; calls := calls (state b);
                        errors := errors (state b) |} |})
    | inl e =>
        (true, [],
         {| sf_connected := Some false;
            state := (st_error ("Error connecting to Salesforce: " +:+ message e)
                        (state b)).2 |})
    end
  else
    (false, [St.info "Click the button above to authenticate to Salesforce."],
     {| sf_connected := Some false; state := state b |}).

(** Visualization 1. *)
Definition visualization_lob (lob_df : DataFrame LOBRow.t) : list St.element :=
  St.subheader "Opportunities by Line of Business Category" ::
  match grouped_lob lob_df with
  | Some grouped =>
      [St.plotly_chart (St.pie grouped "Opportunity Distribution by LOB Category");
       St.dataframe (St.grouped_lob_frame grouped)]
  | None =>
      [St.info "No Line of Business data available for the selected date range."]
  end.

(** Visualization 2. *)
Definition visualization_producer (producer_df : DataFrame ProducerRow.t)
    : list St.element :=
  St.subheader "Opportunities per Producer by LOB Category" ::
  match grouped_producer producer_df with
  | Some grouped =>
      [St.plotly_chart (St.bar grouped "Opportunities per Producer by LOB");
       St.dataframe (St.grouped_producer_frame grouped)]
  | None =>
      [St.info "No producer data available for the selected date range."]
  end.

(** [if st.sidebar.checkbox("Show Raw Data"): ...] *)
Definition raw_data (w : widgets) (lob_df : DataFrame LOBRow.t)
    (producer_df : DataFrame ProducerRow.t) : list St.element :=
  if show_raw_data w then
    [St.subheader "Raw Data (Overall LOB)"; St.dataframe (St.lob_frame lob_df);
     St.subheader "Raw Data (Producer)"; St.dataframe (St.producer_frame producer_df)]
  else [].

(** The script from [st.title] on. *)
Definition dashboard (w : widgets) (σ : session) : list St.element * session :=
  let '(result, σ') :=
    connect_sf_and_query (start_date_input w) (end_date_input w) σ in
  match result with
  | inr (lob_df, producer_df) =>
      (St.title "Opportunity Analysis Dashboard"
       :: visualization_lob lob_df ++ visualization_producer producer_df
       ++ raw_data w lob_df producer_df, σ')
  | inl e => ([St.title "Opportunity Analysis Dashboard"; St.uncaught e], σ')
  end.

(** One run of the file. *)
Definition script (w : widgets) (b : browser) : list St.element * browser :=
  let '(go_on, page, b') := authentication w b in
  if go_on then
    let '(page', σ') := dashboard w (state b') in
    (page ++ page', {| sf_connected := sf_connected b'; state := σ' |})
  else (page, b').

(** The page of a run that got no data. *)
Definition no_data_page (w : widgets) : list St.element :=
  [St.title "Opportunity Analysis Dashboard";
   St.subheader "Opportunities by Line of Business Category";
   St.info "No Line of Business data available for the selected date range.";
   St.subheader "Opportunities per Producer by LOB Category";
   St.info "No producer data available for the selected date range."]
  ++ raw_data w [] [].

(** No login has succeeded yet. *)
Definition unauthenticated (b : browser) : Prop :=
  default false (sf_connected b) = false ∧ sf (state b) = None.

(** The session state of a new browser session, before the first run. *)
Definition new_browser : browser :=
  {| sf_connected := None; state := {| sf := None; calls := []; errors := [] |} |}.

(** The states a browser session can be in: the new one, and the one any run
    leaves. *)
Inductive reachable : browser → Prop :=
  | reachable_new : reachable new_browser
  | reachable_run w b : reachable b → reachable (script w b).2.

(** ** Shapes of texts *)

(** A decimal digit. *)
Definition is_digit (ch : ascii) : bool :=
  let n := nat_of_ascii ch in (48 <=? n)%nat && (n <=? 57)%nat.

(** [has_shape shape s]: [s] has the length of [shape], with a digit wherever
    [shape] has [#] and the character of [shape] everywhere else. *)
Fixpoint has_shape (shape s : string) : bool :=
  match shape, s with
  | EmptyString, EmptyString => true
  | String p shape', String ch s' =>
      (if Ascii.eqb p "#" then is_digit ch else Ascii.eqb p ch)
      && has_shape shape' s'
  | _, _ => false
  end.

(** The owner of a record of query 3 is there but has a null [Name]. *)
Definition owner_name_is_null (rec : sobject) : bool :=
  match Owner rec with
  | Val owner => match Name owner with Null => true | _ => false end
  | _ => false
  end.


(** A date of the years 1000 to 9999, on which [%Y] gives four digits on
    every platform; the month and the day are within what [datetime.date]
    guarantees. *)
Definition valid_date (d : date) : Prop :=
  1000 ≤ Z.of_nat (year d) ≤ 9999
  ∧ 1 ≤ Z.of_nat (month d) ≤ 12
  ∧ 1 ≤ Z.of_nat (day d) ≤ 31.

(** * Properties *)


(** ** Category mapper *)

(** C1. [map_lob] is total on strings: on a key of [LOB_MAPPING] it returns
    the category the table gives, on any other string it returns ["Other"];
    its result is always a string, never an absence. (The same holds of the
    None the callers may pass: it is not a key.) *)
Theorem map_lob_total (type_value : string) :
  map_lob (Some type_value) =
    match LOB_MAPPING !! type_value with
    | Some category => category
    | None => "Other"
    end
  ∧ map_lob None = "Other".
Proof.
  split; [|reflexivity]. unfold map_lob.
  destruct (LOB_MAPPING !! type_value); reflexivity.
Qed.

(** C9. The three sample inputs of the specification. *)
Theorem map_lob_examples :
  map_lob (Some "Homeowners") = "Homeowners"
  ∧ map_lob (Some "Yacht") = "Boat"
  ∧ map_lob (Some "unknown-xyz") = "Other".
Proof. repeat split; vm_compute; reflexivity. Qed.

Lemma LOB_MAPPING_values : map_Forall (λ _ category, category ∈ CATEGORIES) LOB_MAPPING.
Proof. apply (bool_decide_unpack _). vm_compute. reflexivity. Qed.

Lemma map_lob_in_CATEGORIES type_value : map_lob type_value ∈ CATEGORIES.
Proof.
  assert (Hother : "Other" ∈ CATEGORIES) by (do 6 right; left).
  destruct type_value as [s|]; unfold map_lob; [|exact Hother].
  destruct (LOB_MAPPING !! s) as [c|] eqn:Hs; unfold default; [|exact Hother].
  exact (LOB_MAPPING_values s c Hs).
Qed.

Lemma CATEGORIES_attained category :
  category ∈ CATEGORIES → ∃ type_value, map_lob type_value = category.
Proof.
  unfold CATEGORIES. rewrite !elem_of_cons, elem_of_nil.
  intros [->|[->|[->|[->|[->|[->|[->|[]]]]]]]].
  - exists (Some "Homeowners"); vm_compute; reflexivity.
  - exists (Some "Personal Auto"); vm_compute; reflexivity.
  - exists (Some "Boat"); vm_compute; reflexivity.
  - exists (Some "Umbrella"); vm_compute; reflexivity.
  - exists (Some "Inland Marine - PL"); vm_compute; reflexivity.
  - exists (Some "Commercial Package"); vm_compute; reflexivity.
  - exists None; reflexivity.
Qed.

(** ** The loops *)

Lemma append_rows_fmap {R} (row : sobject → R) data records :
  append_rows row data records = data ++ (row <$> records).
Proof.
  unfold append_rows. revert data.
  induction records as [|rec records IH]; intros data; simpl.
  - by rewrite app_nil_r.
  - rewrite IH. by rewrite <- app_assoc.
Qed.

(** ** Running the effects *)

Lemma sent_sent σ qs1 qs2 : sent (sent σ qs1) qs2 = sent σ (qs1 ++ qs2).
Proof. unfold sent; simpl. by rewrite app_assoc. Qed.

Lemma sent_nil σ : sent σ [] = σ.
Proof. destruct σ. unfold sent; simpl. by rewrite app_nil_r. Qed.

Lemma bind_run {A B} (m : M A) (k : A → M B) σ :
  (m ≫= k) σ = match m σ with
               | (inl e, σ') => (inl e, σ')
               | (inr a, σ') => k a σ'
               end.
Proof. reflexivity. Qed.

(** The resolver, run: no id, no call; otherwise one call, whose failure is
    the resolver's and whose records give the mapping. *)
Lemma get_producer_names_run conn producer_ids σ :
  get_producer_names conn producer_ids σ =
    match producer_ids with
    | [] => (inr ∅, σ)
    | _ =>
        let query :=
          producer_query (Py.join ", " ((λ pid, "'" +:+ pid +:+ "'") <$> producer_ids)) in
        match query_all conn (calls σ) query with
        | inl e => (inl e, sent σ [query])
        | inr records => (inr (producer_mapping records), sent σ [query])
        end
    end.
Proof.
  destruct producer_ids as [|pid ids]; [reflexivity|].
  unfold get_producer_names. rewrite bind_run. unfold sf_query_all.
  destruct (query_all _ _ _); reflexivity.
Qed.

(** C7. With no identifier the resolver returns the empty mapping and leaves
    the session as it was: no query is sent. *)
Theorem get_producer_names_empty conn σ :
  get_producer_names conn [] σ = (inr ∅, σ)
  ∧ calls (get_producer_names conn [] σ).2 = calls σ.
Proof. split; reflexivity. Qed.

Section report.
Context (conn : Salesforce) (σ : session) (start_date end_date : date).
Hypothesis connected : sf σ = Some conn.

Let q1 := type_query (date_filter start_date end_date).
Let q2 := query_with_producer (date_filter start_date end_date).
Let q3 := query_without_producer (date_filter start_date end_date).

(** The [try] block, run call by call: the first exception ends it; when
    nothing raises, the two tables are built from the three answers and the
    resolver's mapping. *)
Lemma report_body_run :
  report_body start_date end_date σ =
    match query_all conn (calls σ) q1 with
    | inl e => (inl e, sent σ [q1])
    | inr type_results =>
        match query_all conn (calls σ ++ [q1]) q2 with
        | inl e => (inl e, sent σ [q1; q2])
        | inr results_with_prod =>
            match query_all conn (calls σ ++ [q1; q2]) q3 with
            | inl e => (inl e, sent σ [q1; q2; q3])
            | inr results_without_prod =>
                match get_producer_names conn
                        (elements (producer_id_set results_with_prod))
                        (sent σ [q1; q2; q3]) with
                | (inl e, σ') => (inl e, σ')
                | (inr producer_names, σ') =>
                    (inr (lob_row <$> type_results,
                          (producer_row producer_names <$> results_with_prod)
                          ++ (owner_row <$> results_without_prod)), σ')
                end
            end
        end
    end.
Proof using connected.
  unfold report_body. rewrite bind_run. unfold session_state_sf at 1.
  rewrite connected. rewrite bind_run. unfold sf_query_all at 1. fold q1.
  destruct (query_all conn (calls σ) q1) as [e|r1]; [reflexivity|].
  rewrite bind_run. unfold sf_query_all at 1. fold q2.
  change (calls (sent σ [q1])) with (calls σ ++ [q1]).
  rewrite sent_sent. simpl app.
  destruct (query_all conn (calls σ ++ [q1]) q2) as [e|r2]; [reflexivity|].
  rewrite bind_run. unfold sf_query_all at 1. fold q3.
  change (calls (sent σ [q1; q2])) with (calls σ ++ [q1; q2]).
  rewrite sent_sent. simpl app.
  destruct (query_all conn (calls σ ++ [q1; q2]) q3) as [e|r3]; [reflexivity|].
  rewrite bind_run.
  destruct (get_producer_names conn _ _) as [[e|names] σ']; [reflexivity|].
  rewrite !append_rows_fmap. reflexivity.
Qed.
End report.

(** ** Failure handling *)

(** The [except] clause: an exception of the body becomes one message and two
    empty tables; a result of the body is returned as it is. *)
Lemma connect_sf_and_query_run start_date end_date σ :
  connect_sf_and_query start_date end_date σ =
    match report_body start_date end_date σ with
    | (inl e, σ') =>
        (inr (empty_frame, empty_frame),
         {| sf := sf σ'; calls := calls σ';
            errors := errors σ' ++ ["Error connecting to Salesforce: " +:+ message e] |})
    | (inr tables, σ') => (inr tables, σ')
    end.
Proof.
  unfold connect_sf_and_query, try_except.
  destruct (report_body start_date end_date σ) as [[e|tables] σ']; reflexivity.
Qed.

Lemma connect_sf_and_query_returns start_date end_date σ :
  ∃ tables σ', connect_sf_and_query start_date end_date σ = (inr tables, σ').
Proof.
  rewrite connect_sf_and_query_run.
  destruct (report_body start_date end_date σ) as [[e|tables] σ']; eauto.
Qed.

Lemma answered_no_failure conn log qs :
  answered conn log qs →
  ∀ i, (length log ≤ i)%nat → ¬ call_failed conn (log ++ qs) i.
Proof.
  induction 1 as [log|log q records qs Hq _ IH]; intros i Hi (q' & e & Hlook & Hfail).
  - rewrite app_nil_r in Hlook. apply lookup_ge_None_2 in Hi. congruence.
  - destruct (decide (i = length log)) as [->|Hne].
    + rewrite list_lookup_middle in Hlook by reflexivity.
      rewrite take_app_length in Hfail. congruence.
    + apply (IH i); [rewrite length_app; simpl; lia|].
      exists q', e. rewrite <- app_assoc. simpl. auto.
Qed.

(** A run on a connected session either ends in the [except] clause, with two
    empty tables, or every query it sent was answered. *)
Lemma connect_sf_and_query_cases conn σ start_date end_date :
  sf σ = Some conn →
  (∃ σ', connect_sf_and_query start_date end_date σ
         = (inr (empty_frame, empty_frame), σ'))
  ∨ (∃ tables qs, connect_sf_and_query start_date end_date σ
                  = (inr tables, sent σ qs)
                  ∧ answered conn (calls σ) qs).
Proof.
  intros Hsf. rewrite connect_sf_and_query_run, (report_body_run conn) by done.
  cbv zeta.
  destruct (query_all conn (calls σ) _) as [e|r1] eqn:H1; [eauto|].
  destruct (query_all conn (calls σ ++ [_]) _) as [e|r2] eqn:H2; [eauto|].
  destruct (query_all conn (calls σ ++ [_; _]) _) as [e|r3] eqn:H3; [eauto|].
  rewrite get_producer_names_run.
  destruct (elements (producer_id_set r2)) as [|pid ids] eqn:Hids.
  - right. eexists _, [_; _; _]. split; [reflexivity|].
    econstructor; [exact H1|]. econstructor; [exact H2|].
    econstructor; [rewrite <- app_assoc; exact H3|]. constructor.
  - cbv zeta.
    destruct (query_all conn (calls (sent _ _)) _) as [e|r4] eqn:H4; [eauto|].
    right. eexists _, [_; _; _; _]. split; [rewrite sent_sent; reflexivity|].
    econstructor; [exact H1|]. econstructor; [exact H2|].
    econstructor; [rewrite <- app_assoc; exact H3|].
    econstructor; [rewrite <- !app_assoc; exact H4|]. constructor.
Qed.

(** A refused lookup empties both tables although the three aggregation
    queries were answered; the message is shown and four queries were sent. *)
Lemma lookup_failure_example :
  let run := connect_sf_and_query (Date 2025 1 1) (Date 2025 1 31)
               (session_on (scripted lookup_failing_answers)) in
  run.1 = inr ([], [])
  ∧ errors run.2 = ["Error connecting to Salesforce: REQUEST_LIMIT_EXCEEDED"]
  ∧ length (calls run.2) = 4%nat.
Proof. vm_compute. repeat split; reflexivity. Qed.

(** C3. When a query sent during a run (one of the three aggregation queries
    or the producer lookup) is answered with an exception, the run does not
    raise: it returns two empty tables, whatever the earlier queries
    returned. *)
Theorem query_failure_gives_empty_tables conn σ start_date end_date i :
  sf σ = Some conn →
  (length (calls σ) ≤ i)%nat →
  call_failed conn (calls (connect_sf_and_query start_date end_date σ).2) i →
  (connect_sf_and_query start_date end_date σ).1 = inr (empty_frame, empty_frame).
Proof.
  intros Hsf Hi Hfail.
  destruct (connect_sf_and_query_cases conn σ start_date end_date Hsf)
    as [[σ' ->]|(tables & qs & Hrun & Hans)]; [reflexivity|].
  rewrite Hrun in Hfail. simpl in Hfail.
  by destruct (answered_no_failure conn (calls σ) qs Hans i Hi).
Qed.

(** ** Conservation of counts *)

Lemma Zsum_app l1 l2 : Zsum (l1 ++ l2) = Zsum l1 + Zsum l2.
Proof. induction l1 as [|x l1 IH]; simpl; lia. Qed.

Lemma Zsum_Permutation l1 l2 : l1 ≡ₚ l2 → Zsum l1 = Zsum l2.
Proof. induction 1; simpl; lia. Qed.

Lemma Zsum_fmap_add {A} (f g : A → Z) l :
  Zsum ((λ a, f a + g a) <$> l) = Zsum (f <$> l) + Zsum (g <$> l).
Proof. induction l as [|a l IH]; csimpl; lia. Qed.

(** Among distinct keys, exactly one equals a key of the list. *)
Lemma Zsum_one_key (c : string) (x : Z) (keys : list string) :
  NoDup keys →
  Zsum ((λ k, if decide (c = k) then x else 0) <$> keys)
  = if decide (c ∈ keys) then x else 0.
Proof.
  induction 1 as [|k keys Hk Hnd IH]; csimpl; [reflexivity|].
  rewrite IH. clear IH.
  destruct (decide (c = k)) as [->|Hne].
  - rewrite (decide_False (P := k ∈ keys)) by exact Hk.
    rewrite (decide_True (P := k ∈ k :: keys)) by left. lia.
  - destruct (decide (c ∈ keys)) as [Hin|Hin].
    + rewrite (decide_True (P := c ∈ k :: keys)) by (right; exact Hin). lia.
    + rewrite (decide_False (P := c ∈ k :: keys)); [lia|].
      intros [?| ?]%elem_of_cons; tauto.
Qed.

(** Summing the per-key sums over distinct keys that cover every row gives
    the sum over the rows. *)
Lemma Zsum_by_key (df : list LOBRow.t) (keys : list string) :
  NoDup keys →
  (∀ r, r ∈ df → LOBRow.LOB_Category r ∈ keys) →
  Zsum ((λ k, Zsum (LOBRow.Count <$>
                 filter (λ r, LOBRow.LOB_Category r = k) df)) <$> keys)
  = Zsum (LOBRow.Count <$> df).
Proof.
  intros Hnd. induction df as [|r df IH]; intros Hcover.
  - csimpl. induction keys as [|k keys IHk]; csimpl; [reflexivity|].
    rewrite IHk; [reflexivity|by inversion Hnd|]. intros r Hr. by inversion Hr.
  - csimpl. rewrite <- IH by (intros r' Hr'; apply Hcover; by right).
    transitivity (Zsum ((λ k,
        (if decide (LOBRow.LOB_Category r = k) then LOBRow.Count r else 0)
        + Zsum (LOBRow.Count <$> filter (λ r, LOBRow.LOB_Category r = k) df))
        <$> keys)).
    + f_equal. apply list_fmap_ext. intros _ k _. rewrite filter_cons.
      destruct (decide (LOBRow.LOB_Category r = k)); reflexivity.
    + rewrite Zsum_fmap_add, Zsum_one_key by done.
      rewrite decide_True by (apply Hcover; left). reflexivity.
Qed.

Lemma filter_fmap_comm {A B} (f : A → B) (P : B → Prop) `{!∀ y, Decision (P y)}
    (l : list A) :
  filter P (f <$> l) = f <$> filter (λ x, P (f x)) l.
Proof.
  induction l as [|x l IH]; [reflexivity|].
  rewrite fmap_cons, !filter_cons. destruct (decide (P (f x))).
  - by rewrite fmap_cons, IH.
  - exact IH.
Qed.

(** ** Sums in int64 *)

Lemma in_int64_bounds z :
  in_int64 z ↔ -9223372036854775808 ≤ z < 9223372036854775808.
Proof. reflexivity. Qed.

(** A sum that fits is not changed by the wrap-around. *)
Lemma wrap_int64_id z : in_int64 z → wrap_int64 z = z.
Proof.
  rewrite in_int64_bounds. intros Hz. unfold wrap_int64.
  change (2 ^ 63) with 9223372036854775808.
  change (2 ^ 64) with 18446744073709551616.
  rewrite Z.mod_small; lia.
Qed.

(** Among counts that are not negative, the counts of some of the rows add up
    to no more than the counts of all of them. *)
Lemma Zsum_filter_bounds {A} (val : A → Z) (P : A → Prop) `{!∀ x, Decision (P x)}
    (l : list A) :
  (∀ x, x ∈ l → 0 ≤ val x) →
  0 ≤ Zsum (val <$> filter P l) ≤ Zsum (val <$> l).
Proof.
  induction l as [|x l IH]; intros Hpos; [csimpl; lia|].
  assert (0 ≤ val x) by (apply Hpos; left).
  assert (0 ≤ Zsum (val <$> filter P l) ≤ Zsum (val <$> l))
    by (apply IH; intros y Hy; apply Hpos; by right).
  rewrite filter_cons. destruct (decide (P x)); csimpl; lia.
Qed.

Lemma nonnegative_sums_in_int64 {A} (val : A → Z) (P : A → Prop)
    `{!∀ x, Decision (P x)} (l : list A) :
  (∀ x, x ∈ l → 0 ≤ val x) →
  Zsum (val <$> l) < 2 ^ 63 →
  in_int64 (Zsum (val <$> filter P l)).
Proof.
  intros Hpos. change (2 ^ 63) with 9223372036854775808. intros Htotal.
  pose proof (Zsum_filter_bounds val P l Hpos). apply in_int64_bounds. lia.
Qed.

Lemma groupby_sum_total (lob_df : list LOBRow.t) :
  (∀ k, in_int64 (Zsum (LOBRow.Count <$>
                   filter (λ r, LOBRow.LOB_Category r = k) lob_df))) →
  Zsum ((groupby_sum lob_df).*2) = Zsum (LOBRow.Count <$> lob_df).
Proof.
  intros Hfit. unfold groupby_sum. rewrite <- list_fmap_compose.
  set (per_key := snd ∘ _).
  rewrite (Zsum_Permutation _ (per_key <$> remove_dups (LOBRow.LOB_Category <$> lob_df)))
    by apply fmap_Permutation, merge_sort_Permutation.
  rewrite (list_fmap_ext per_key
             (λ k, Zsum (LOBRow.Count <$>
                     filter (λ r, LOBRow.LOB_Category r = k) lob_df)))
    by (intros _ k _; apply wrap_int64_id, Hfit).
  apply Zsum_by_key; [apply NoDup_remove_dups|].
  intros r Hr. apply elem_of_remove_dups. by apply list_elem_of_fmap_2.
Qed.

(** The counts of the records of one category, as the rows of [lob_df]
    carry them. *)
Lemma lob_rows_of_category (type_results : list sobject) (category : string) :
  LOBRow.Count <$>
    filter (λ r, LOBRow.LOB_Category r = category) (lob_row <$> type_results)
  = (λ rec, default 0 (oppCount rec)) <$>
      filter (λ rec, map_lob (get_default (Type_ rec) "Other") = category)
        type_results.
Proof. by rewrite filter_fmap_comm, <- list_fmap_compose. Qed.

(** C2, for sums that fit. The counts survive the mapping as long as the
    sums stay within int64:
    when every count of query 1 fits a 64-bit signed integer and so does the
    sum of the counts of each category, the sum of [Count] over the table
    grouped by category equals the sum of the counts of the records of query
    1. (The grouped table exists when the report is not empty; with no record
    both sums are zero.) *)
Theorem lob_counts_conserved (type_results : list sobject) :
  (∀ rec, rec ∈ type_results → in_int64 (default 0 (oppCount rec))) →
  (∀ category,
     in_int64 (Zsum ((λ rec, default 0 (oppCount rec)) <$>
                     filter (λ rec,
                       map_lob (get_default (Type_ rec) "Other") = category)
                       type_results))) →
  match grouped_lob (append_rows lob_row [] type_results) with
  | Some grouped =>
      Zsum (grouped.*2) = Zsum ((λ rec, default 0 (oppCount rec)) <$> type_results)
  | None => type_results = []
  end.
Proof.
  intros _ Hfit. rewrite append_rows_fmap, app_nil_l.
  destruct type_results as [|rec records]; [reflexivity|].
  unfold grouped_lob. rewrite fmap_cons, <- fmap_cons.
  rewrite groupby_sum_total.
  - by rewrite <- list_fmap_compose.
  - intros category. rewrite lob_rows_of_category. apply Hfit.
Qed.

(** C2 on three records, two of them of the category "Homeowners". *)
Lemma lob_counts_conserved_witness :
  ∃ grouped,
    grouped_lob (append_rows lob_row []
                   [type_record (Val "Homeowners") 5;
                    type_record (Val "Umbrella") 2;
                    type_record (Val "Dwelling Fire - PL") 4]) = Some grouped
    ∧ Zsum (grouped.*2) = 11.
Proof.
  set (records := [type_record (Val "Homeowners") 5;
                   type_record (Val "Umbrella") 2;
                   type_record (Val "Dwelling Fire - PL") 4]).
  assert (Hpos : ∀ rec, rec ∈ records → 0 ≤ default 0 (oppCount rec)).
  { intros rec Hin. unfold records in Hin.
    rewrite !elem_of_cons, elem_of_nil in Hin.
    destruct Hin as [->|[->|[->|[]]]]; simpl; lia. }
  pose proof (lob_counts_conserved records) as Hthm.
  destruct (grouped_lob (append_rows lob_row [] records)) as [grouped|];
    [|discriminate Hthm].
  - exists grouped. split; [reflexivity|]. apply Hthm.
    + intros rec Hin. apply in_int64_bounds. specialize (Hpos rec Hin).
      unfold records in Hin. rewrite !elem_of_cons, elem_of_nil in Hin.
      destruct Hin as [->|[->|[->|[]]]]; simpl; lia.
    + intros category. apply nonnegative_sums_in_int64; [exact Hpos|].
      vm_compute. reflexivity.
  - intros rec Hin. apply in_int64_bounds.
    unfold records in Hin. rewrite !elem_of_cons, elem_of_nil in Hin.
    destruct Hin as [->|[->|[->|[]]]]; simpl; lia.
  - intros category.
    apply (nonnegative_sums_in_int64 (λ rec, default 0 (oppCount rec)));
      [exact Hpos|]. vm_compute. reflexivity.
Defined.

(** C2 does not hold without that bound. When a sum leaves the int64 range
    it wraps around: with two counts of [2^62] in one category the grouped
    count is [-2^63], and the grouped total is not the total of the
    records. *)
Lemma lob_counts_overflow :
  grouped_lob (append_rows lob_row []
                 [type_record (Val "Boat") (2 ^ 62);
                  type_record (Val "Yacht") (2 ^ 62);
                  type_record (Val "Life") 1])
  = Some [("Boat", -9223372036854775808); ("Other", 1)]
  ∧ Zsum ([("Boat", -9223372036854775808); ("Other", 1)].*2)
    = -9223372036854775807
  ∧ Zsum ((λ rec, default 0 (oppCount rec)) <$>
          [type_record (Val "Boat") (2 ^ 62);
           type_record (Val "Yacht") (2 ^ 62);
           type_record (Val "Life") 1])
    = 9223372036854775809
  ∧ Zsum ([("Boat", -9223372036854775808); ("Other", 1)].*2)
    ≠ Zsum ((λ rec, default 0 (oppCount rec)) <$>
            [type_record (Val "Boat") (2 ^ 62);
             type_record (Val "Yacht") (2 ^ 62);
             type_record (Val "Life") 1]).
Proof.
  split; [vm_compute; reflexivity|]. split; [vm_compute; reflexivity|].
  split; [vm_compute; reflexivity|]. vm_compute. discriminate.
Qed.

(** ** The date filter *)

(** From the year 1000 to the year 9999 the year has four digits as it is. *)
Lemma year_four_digits n :
  1000 ≤ Z.of_nat n ≤ 9999 → Py.zfill 4 (Py.str_nat n) = Py.str_nat n.
Proof.
  assert (Hall : forallb (λ n, (n <? 1000)%nat
                               || String.eqb (Py.zfill 4 (Py.str_nat n)) (Py.str_nat n))
                   (seq 0 (100 * 100)) = true) by (vm_compute; reflexivity).
  intros Hn. rewrite forallb_forall in Hall.
  assert (Hin : In n (seq 0 (100 * 100))) by (apply in_seq; lia).
  apply Hall, orb_true_iff in Hin as [Hlt|Heq].
  - apply Nat.ltb_lt in Hlt. lia.
  - by apply String.eqb_eq.
Qed.










(** ** The two tables *)

(** Whatever happens, a run returns two tables made of rows of the three
    loops (none at all after an exception). *)
Lemma connect_sf_and_query_tables start_date end_date σ :
  ∃ type_results results_with_prod results_without_prod producer_names σ',
    connect_sf_and_query start_date end_date σ
    = (inr (lob_row <$> type_results,
            (producer_row producer_names <$> results_with_prod)
            ++ (owner_row <$> results_without_prod)), σ').
Proof.
  assert (Hempty : ∀ σ' : session,
    ∃ r1 r2 r3 (names : gmap (option string) string) σ'',
      (inr (A:=exn) (@empty_frame LOBRow.t, @empty_frame ProducerRow.t), σ')
      = (inr (lob_row <$> r1, (producer_row names <$> r2) ++ (owner_row <$> r3)), σ'')).
  { intros σ'. by exists [], [], [], ∅, σ'. }
  rewrite connect_sf_and_query_run.
  destruct (sf σ) as [conn|] eqn:Hsf.
  - rewrite (report_body_run conn) by exact Hsf. cbv zeta.
    destruct (query_all conn (calls σ) _) as [e|r1]; [apply Hempty|].
    destruct (query_all conn (calls σ ++ [_]) _) as [e|r2]; [apply Hempty|].
    destruct (query_all conn (calls σ ++ [_; _]) _) as [e|r3]; [apply Hempty|].
    destruct (get_producer_names conn _ _) as [[e|names] σ']; [apply Hempty|].
    by exists r1, r2, r3, names, σ'.
  - unfold report_body. rewrite bind_run. unfold session_state_sf. rewrite Hsf.
    apply Hempty.
Qed.

(** C10. In both tables every normalized category is one of the seven
    strings of [CATEGORIES], whatever the queries returned and also after a
    failure; a run never ends in an exception. Each of the seven is the
    category of some raw type. *)
Theorem categories_closed start_date end_date σ :
  match connect_sf_and_query start_date end_date σ with
  | (inr (lob_df, producer_df), _) =>
      Forall (λ row, LOBRow.LOB_Category row ∈ CATEGORIES) lob_df
      ∧ Forall (λ row, ProducerRow.LOB_Category row ∈ CATEGORIES) producer_df
  | (inl _, _) => False
  end
  ∧ CATEGORIES = ["Homeowners"; "Personal Auto"; "Boat"; "Umbrella";
                  "Inland Marine"; "Commercial"; "Other"]
  ∧ Forall (λ category, ∃ type_value, map_lob type_value = category) CATEGORIES.
Proof.
  split; [|split; [reflexivity|]].
  - destruct (connect_sf_and_query_tables start_date end_date σ)
      as (r1 & r2 & r3 & names & σ' & ->).
    split; [|apply Forall_app; split]; apply Forall_fmap, Forall_true;
      intros rec; apply map_lob_in_CATEGORIES.
  - apply Forall_forall. intros category. apply CATEGORIES_attained.
Qed.

(** ** Producer names *)

Lemma producer_mapping_snoc records rec :
  producer_mapping (records ++ [rec])
  = <[get (Id rec) := full_name rec]> (producer_mapping records).
Proof. unfold producer_mapping. by rewrite foldl_snoc. Qed.

(** Every key of the mapping is the [Id] of a record of the lookup, and its
    value is the display name of such a record. *)
Lemma producer_mapping_lookup_Some records pid name :
  producer_mapping records !! pid = Some name →
  ∃ rec, rec ∈ records ∧ get (Id rec) = pid ∧ name = full_name rec.
Proof.
  induction records as [|rec records IH] using rev_ind; intros Hlook.
  - unfold producer_mapping in Hlook. simpl in Hlook.
    by rewrite lookup_empty in Hlook.
  - rewrite producer_mapping_snoc in Hlook.
    destruct (decide (get (Id rec) = pid)) as [Heq|Hne].
    + rewrite Heq, lookup_insert_eq in Hlook. injection Hlook as <-.
      exists rec. split; [|done]. apply elem_of_app. right. left.
    + rewrite lookup_insert_ne in Hlook by done.
      destruct (IH Hlook) as (rec' & Hin & Hid & Hname).
      exists rec'. split; [|done]. apply elem_of_app. by left.
Qed.

Lemma producer_mapping_lookup_None records pid :
  (∀ rec, rec ∈ records → get (Id rec) ≠ pid) →
  producer_mapping records !! pid = None.
Proof.
  intros Hnone. destruct (producer_mapping records !! pid) as [name|] eqn:Hlook;
    [|reflexivity].
  apply producer_mapping_lookup_Some in Hlook as (rec & Hin & Hid & _).
  by destruct (Hnone rec Hin).
Qed.

(** C5. An id that no record of the lookup carries is absent from the
    resolver's mapping; a row of query 2 whose producer id is absent from the
    mapping gets the sentinel as its producer. In the scenario of the
    specification (query 2 returns one row for "P1", type "Boat", count 3, and
    the lookup finds nothing) the producer table is that one row with
    producer "Name Not Provided", category "Boat" and count 3. *)
Theorem unresolved_producer_gets_sentinel :
  (∀ conn producer_ids σ producer_names σ' pid,
     get_producer_names conn producer_ids σ = (inr producer_names, σ') →
     (∀ records rec,
        query_all conn (calls σ)
          (producer_query
             (Py.join ", " ((λ pid, "'" +:+ pid +:+ "'") <$> producer_ids)))
        = inr records →
        rec ∈ records → get (Id rec) ≠ pid) →
     producer_names !! pid = None)
  ∧ (∀ (producer_names : gmap (option string) string) rec,
       producer_names !! get (Producer__c rec) = None →
       producer_row producer_names rec
       = {| ProducerRow.Producer := Some "Name Not Provided";
            ProducerRow.Type_ := get_default (Type_ rec) "Other";
            ProducerRow.LOB_Category := map_lob (get_default (Type_ rec) "Other");
            ProducerRow.Count := default 0 (oppCount rec) |})
  ∧ (connect_sf_and_query (Date 2025 1 1) (Date 2025 1 31)
       (session_on (scripted
          [inr []; inr [with_producer_record (Val "P1") (Val "Boat") 3];
           inr []; inr []]))).1
    = inr ([], [{| ProducerRow.Producer := Some "Name Not Provided";
                   ProducerRow.Type_ := Some "Boat";
                   ProducerRow.LOB_Category := "Boat";
                   ProducerRow.Count := 3 |}]).
Proof.
  split; [|split].
  - intros conn producer_ids σ producer_names σ' pid Hrun Hnone.
    rewrite get_producer_names_run in Hrun.
    destruct producer_ids as [|id ids].
    { injection Hrun as <- _. apply lookup_empty. }
    cbv zeta in Hrun.
    destruct (query_all conn (calls σ) _) as [e|records] eqn:Hq; [discriminate|].
    injection Hrun as <- _. apply producer_mapping_lookup_None.
    intros rec. exact (Hnone records rec eq_refl).
  - intros producer_names rec Hnone. unfold producer_row. rewrite Hnone. reflexivity.
  - vm_compute. reflexivity.
Qed.

(** The first two parts of C5 on a lookup that finds "P2" only: "P1" is
    absent from the mapping and its row gets the sentinel. *)
Lemma unresolved_producer_gets_sentinel_witness :
  producer_mapping
    [producer_record (Val "P2")
       (Val {| FirstName := Val "Jane"; LastName := Val "Doe" |})]
    !! Some "P1" = None
  ∧ producer_row
      (producer_mapping
         [producer_record (Val "P2")
            (Val {| FirstName := Val "Jane"; LastName := Val "Doe" |})])
      (with_producer_record (Val "P1") (Val "Boat") 3)
    = {| ProducerRow.Producer := Some "Name Not Provided";
         ProducerRow.Type_ := Some "Boat";
         ProducerRow.LOB_Category := "Boat";
         ProducerRow.Count := 3 |}.
Proof.
  destruct unresolved_producer_gets_sentinel as (Habsent & Hrow & _).
  set (found := producer_record (Val "P2")
                  (Val {| FirstName := Val "Jane"; LastName := Val "Doe" |})).
  set (conn := scripted [inr [found]]).
  assert (Hnone : producer_mapping [found] !! Some "P1" = None).
  { apply (Habsent conn ["P1"] (session_on conn) (producer_mapping [found])
             (sent (session_on conn) [producer_query "'P1'"]) (Some "P1")).
    - reflexivity.
    - intros records rec Hq Hin. simpl in Hq. injection Hq as <-.
      apply list_elem_of_singleton in Hin as ->. discriminate. }
  split; [exact Hnone|].
  rewrite (Hrow (producer_mapping [found])
             (with_producer_record (Val "P1") (Val "Boat") 3) Hnone).
  vm_compute. reflexivity.
Defined.

(** C8. When nothing raises, the producer table is the rows of query 2, in
    order, followed by the rows of query 3, in order. A row of query 2 has
    the resolved display name of its producer id, or the sentinel when the id
    is not in the mapping. A row of query 3 has the [Name] of its [Owner] as
    it is, or the sentinel when the relationship (or the key) is missing.
    Both kinds of row have the same four fields, the category being [map_lob]
    of the raw type. *)
Theorem producer_report_rows conn σ start_date end_date
    type_results results_with_prod results_without_prod producer_names σ' :
  sf σ = Some conn →
  query_all conn (calls σ) (type_query (date_filter start_date end_date))
  = inr type_results →
  query_all conn (calls σ ++ [type_query (date_filter start_date end_date)])
    (query_with_producer (date_filter start_date end_date))
  = inr results_with_prod →
  query_all conn
    (calls σ ++ [type_query (date_filter start_date end_date);
                 query_with_producer (date_filter start_date end_date)])
    (query_without_producer (date_filter start_date end_date))
  = inr results_without_prod →
  get_producer_names conn (elements (producer_id_set results_with_prod))
    (sent σ [type_query (date_filter start_date end_date);
             query_with_producer (date_filter start_date end_date);
             query_without_producer (date_filter start_date end_date)])
  = (inr producer_names, σ') →
  (connect_sf_and_query start_date end_date σ).1
  = inr (lob_row <$> type_results,
         (producer_row producer_names <$> results_with_prod)
         ++ (owner_row <$> results_without_prod))
  ∧ (∀ rec,
       producer_row producer_names rec
       = {| ProducerRow.Producer :=
              Some (default "Name Not Provided"
                      (producer_names !! get (Producer__c rec)));
            ProducerRow.Type_ := get_default (Type_ rec) "Other";
            ProducerRow.LOB_Category := map_lob (get_default (Type_ rec) "Other");
            ProducerRow.Count := default 0 (oppCount rec) |})
  ∧ (∀ rec,
       owner_row rec
       = {| ProducerRow.Producer :=
              match Owner rec with
              | Val owner => get_default (Name owner) "Name Not Provided"
              | _ => Some "Name Not Provided"
              end;
            ProducerRow.Type_ := get_default (Type_ rec) "Other";
            ProducerRow.LOB_Category := map_lob (get_default (Type_ rec) "Other");
            ProducerRow.Count := default 0 (oppCount rec) |}).
Proof.
  intros Hsf H1 H2 H3 Hnames. split; [|split].
  - rewrite connect_sf_and_query_run, (report_body_run conn) by exact Hsf.
    cbv zeta. rewrite H1, H2, H3, Hnames. reflexivity.
  - intros rec. reflexivity.
  - intros rec. unfold owner_row. destruct (Owner rec); reflexivity.
Qed.

(** C8 on the sample run: the rows of the two producers, then the rows of the
    two records without producer. *)
Lemma producer_report_rows_witness :
  (connect_sf_and_query (Date 2025 1 1) (Date 2025 1 31)
     (session_on (scripted sample_answers))).1
  = inr ([{| LOBRow.Type_ := Some "Homeowners";
             LOBRow.LOB_Category := "Homeowners"; LOBRow.Count := 5 |};
          {| LOBRow.Type_ := Some "Umbrella";
             LOBRow.LOB_Category := "Umbrella"; LOBRow.Count := 2 |}],
         [{| ProducerRow.Producer := Some "Jane Doe";
             ProducerRow.Type_ := Some "Yacht";
             ProducerRow.LOB_Category := "Boat"; ProducerRow.Count := 3 |};
          {| ProducerRow.Producer := Some "Name Not Provided";
             ProducerRow.Type_ := Some "Boat";
             ProducerRow.LOB_Category := "Boat"; ProducerRow.Count := 1 |};
          {| ProducerRow.Producer := Some "Alex Kim";
             ProducerRow.Type_ := Some "Life";
             ProducerRow.LOB_Category := "Other"; ProducerRow.Count := 4 |};
          {| ProducerRow.Producer := Some "Name Not Provided";
             ProducerRow.Type_ := None;
             ProducerRow.LOB_Category := "Other"; ProducerRow.Count := 1 |}]).
Proof.
  set (conn := scripted sample_answers).
  set (d1 := Date 2025 1 1). set (d2 := Date 2025 1 31).
  set (found := producer_record (Val "P2")
                  (Val {| FirstName := Val "Jane"; LastName := Val "Doe" |})).
  set (r2 := [with_producer_record (Val "P2") (Val "Yacht") 3;
              with_producer_record (Val "P9") (Val "Boat") 1]).
  destruct (producer_report_rows conn (session_on conn) d1 d2
              [type_record (Val "Homeowners") 5; type_record (Val "Umbrella") 2]
              r2
              [without_producer_record (Val {| Name := Val "Alex Kim" |}) (Val "Life") 4;
               without_producer_record Null Null 1]
              (producer_mapping [found])
              (get_producer_names conn (elements (producer_id_set r2))
                 (sent (session_on conn)
                    [type_query (date_filter d1 d2);
                     query_with_producer (date_filter d1 d2);
                     query_without_producer (date_filter d1 d2)])).2)
    as [Hrun _];
    [reflexivity | reflexivity | reflexivity | reflexivity
    | vm_compute; reflexivity |].
  rewrite Hrun. vm_compute. reflexivity.
Defined.

(** C3 on a run whose second query is refused: the answer of query 1 is
    dropped and both tables are empty. *)
Lemma query_failure_gives_empty_tables_witness :
  call_failed (scripted failing_answers)
    (calls (connect_sf_and_query (Date 2025 1 1) (Date 2025 1 31)
              (session_on (scripted failing_answers))).2) 1
  ∧ (connect_sf_and_query (Date 2025 1 1) (Date 2025 1 31)
       (session_on (scripted failing_answers))).1
    = inr ([], []).
Proof.
  assert (Hfail : call_failed (scripted failing_answers)
    (calls (connect_sf_and_query (Date 2025 1 1) (Date 2025 1 31)
              (session_on (scripted failing_answers))).2) 1).
  { eexists _, _. split; reflexivity. }
  split; [exact Hfail|].
  apply (query_failure_gives_empty_tables (scripted failing_answers)
           (session_on (scripted failing_answers)) _ _ 1);
    [reflexivity | simpl; lia | exact Hfail].
Defined.

(** ** Display names *)

(** When both name components are strings (or their keys are missing), the
    display name is the stripped concatenation, replaced by the sentinel when
    it is empty. *)
Lemma full_name_of_strings rec user :
  InternalUser rec = Val user →
  FirstName user ≠ Null →
  LastName user ≠ Null →
  full_name rec
  = (let name := Py.strip (default "" (get (FirstName user)) +:+ " "
                           +:+ default "" (get (LastName user))) in
     if Py.is_empty name then "Name Not Provided" else name).
Proof.
  intros Huser Hfirst Hlast. unfold full_name. rewrite Huser. simpl.
  destruct (FirstName user), (LastName user); done.
Qed.

(** A missing or null relationship gives the sentinel. *)
Lemma full_name_no_user rec :
  get (InternalUser rec) = None → full_name rec = "Name Not Provided".
Proof.
  intros Hnone. unfold full_name. destruct (InternalUser rec); [done..|discriminate].
Qed.

(** The two lookups of the specification's examples: blank names give the
    sentinel, "Jane" and "Doe" give "Jane Doe". *)
Lemma get_producer_names_examples :
  (get_producer_names
     (scripted [inr [producer_record (Val "P1")
                       (Val {| FirstName := Val ""; LastName := Val "" |});
                     producer_record (Val "P2")
                       (Val {| FirstName := Val "Jane"; LastName := Val "Doe" |})]])
     ["P1"; "P2"] (session_on (scripted []))).1
  = inr {[Some "P1" := "Name Not Provided"; Some "P2" := "Jane Doe"]}.
Proof. vm_compute. reflexivity. Qed.

(** C4, at the input on which the code departs from it. A name component
    that is present with null is read as None by [.get("FirstName", "")] (the
    default stands for a missing key only) and the f-string writes it as the
    text "None": with a null first name the display name is "None Doe", not
    "Doe"; with both components null it is "None None", not the sentinel. *)
Theorem null_name_component_is_formatted_as_None :
  (get_producer_names
     (scripted [inr [producer_record (Val "P1")
                       (Val {| FirstName := Null; LastName := Val "Doe" |})]])
     ["P1"] (session_on (scripted []))).1
  = inr {[Some "P1" := "None Doe"]}
  ∧ (get_producer_names
       (scripted [inr [producer_record (Val "P1")
                         (Val {| FirstName := Null; LastName := Null |})]])
       ["P1"] (session_on (scripted []))).1
    = inr {[Some "P1" := "None None"]}.
Proof. split; vm_compute; reflexivity. Qed.

(** The specification's scenario for the first table: two types in, the same
    two rows out with their categories. *)
Lemma lob_report_example :
  append_rows lob_row []
    [type_record (Val "Homeowners") 5; type_record (Val "Umbrella") 2]
  = [{| LOBRow.Type_ := Some "Homeowners";
        LOBRow.LOB_Category := "Homeowners"; LOBRow.Count := 5 |};
     {| LOBRow.Type_ := Some "Umbrella";
        LOBRow.LOB_Category := "Umbrella"; LOBRow.Count := 2 |}].
Proof. vm_compute. reflexivity. Qed.

(** * Further properties of the code *)

(** ** Stripping *)

Lemma lstrip_lstrip s : Py.lstrip (Py.lstrip s) = Py.lstrip s.
Proof.
  induction s as [|ch s IH]; [reflexivity|]. simpl.
  destruct (Py.isspace ch) eqn:Hch; [exact IH|]. simpl. by rewrite Hch.
Qed.

Lemma rstrip_rstrip s : Py.rstrip (Py.rstrip s) = Py.rstrip s.
Proof.
  induction s as [|ch s IH]; [reflexivity|]. simpl.
  destruct (Py.rstrip s) as [|ch' s'] eqn:Hs.
  - destruct (Py.isspace ch) eqn:Hch; [reflexivity|]. simpl. by rewrite Hch.
  - change (Py.rstrip (String ch (String ch' s')))
      with (match Py.rstrip (String ch' s') with
            | EmptyString =>
                if Py.isspace ch then EmptyString else String ch EmptyString
            | rest' => String ch rest'
            end).
    by rewrite IH.
Qed.

(** Dropping leading whitespace leaves the end of the text as it was. *)
Lemma rstrip_lstrip_fixed s : Py.rstrip s = s → Py.rstrip (Py.lstrip s) = Py.lstrip s.
Proof.
  induction s as [|ch s IH]; [reflexivity|]. intros Hfix. simpl.
  destruct (Py.isspace ch) eqn:Hch; [|exact Hfix].
  apply IH. simpl in Hfix. rewrite Hch in Hfix.
  destruct (Py.rstrip s) as [|ch' s'] eqn:Hs; [discriminate|].
  by injection Hfix.
Qed.

Lemma strip_strip s : Py.strip (Py.strip s) = Py.strip s.
Proof.
  unfold Py.strip.
  rewrite (rstrip_lstrip_fixed (Py.rstrip s)) by apply rstrip_rstrip.
  apply lstrip_lstrip.
Qed.

(** ** The rule table, read as data *)

Lemma LOB_MAPPING_keys_stripped : map_Forall (λ key _, Py.strip key = key) LOB_MAPPING.
Proof. apply (bool_decide_unpack _). vm_compute. reflexivity. Qed.

(** X1. The lookup is exact: no key of the table begins or ends with
    whitespace, and [map_lob] strips nothing, so a raw type with whitespace
    around it is sent to "Other" even when its stripped form is a key. *)
Theorem map_lob_does_not_strip (type_value : string) :
  Py.strip type_value ≠ type_value →
  map_lob (Some type_value) = "Other".
Proof.
  intros Hpadded. unfold map_lob.
  destruct (LOB_MAPPING !! type_value) as [category|] eqn:Hkey; [|reflexivity].
  destruct Hpadded. exact (LOB_MAPPING_keys_stripped type_value category Hkey).
Qed.

Lemma map_lob_does_not_strip_witness :
  map_lob (Some (Py.strip "Yacht ")) = "Boat" ∧ map_lob (Some "Yacht ") = "Other".
Proof.
  split; [vm_compute; reflexivity|].
  apply (map_lob_does_not_strip "Yacht "). vm_compute. discriminate.
Defined.

(** X2. Five of the seven categories are their own category when they come
    in as a raw type; "Inland Marine" and "Commercial" are not keys of the
    table, so a raw type spelled like them is sent to "Other": mapping an
    already mapped value loses exactly these two. *)
Theorem map_lob_of_category (type_value : option string) :
  map_lob (Some (map_lob type_value))
  = if bool_decide (map_lob type_value ∈ ["Inland Marine"; "Commercial"])
    then "Other" else map_lob type_value.
Proof.
  pose proof (map_lob_in_CATEGORIES type_value) as Hin.
  set (category := map_lob type_value) in *. clearbody category.
  unfold CATEGORIES in Hin. rewrite !elem_of_cons, elem_of_nil in Hin.
  destruct Hin as [->|[->|[->|[->|[->|[->|[->|[]]]]]]]]; vm_compute; reflexivity.
Qed.

(** ** The resolver's mapping *)

(** X3. For every key, the mapping holds the display name of the last
    record of the lookup that carries this [Id] (a later record replaces an
    earlier one), and nothing when no record carries it; so the producer of a
    row of query 2 is the display name of the last record of the lookup whose
    [Id] is the row's producer id, or the sentinel when there is none. *)
Theorem producer_mapping_last_wins (records : list sobject) (pid : option string) :
  producer_mapping records !! pid
  = full_name <$> last (filter (λ rec, get (Id rec) = pid) records)
  ∧ ∀ row,
      get (Producer__c row) = pid →
      ProducerRow.Producer (producer_row (producer_mapping records) row)
      = Some (from_option full_name "Name Not Provided"
                (last (filter (λ rec, get (Id rec) = pid) records))).
Proof.
  assert (Hlook : producer_mapping records !! pid
                  = full_name <$> last (filter (λ rec, get (Id rec) = pid) records)).
  { induction records as [|rec records IH] using rev_ind.
    - unfold producer_mapping. simpl. apply lookup_empty.
    - rewrite producer_mapping_snoc, filter_app.
      destruct (decide (get (Id rec) = pid)) as [Heq|Hne].
      + rewrite filter_cons_True by exact Heq. rewrite filter_nil, last_snoc.
        rewrite Heq. apply lookup_insert_eq.
      + rewrite filter_cons_False by exact Hne. rewrite filter_nil, app_nil_r.
        rewrite lookup_insert_ne by exact Hne. exact IH. }
  split; [exact Hlook|]. intros row Hrow. unfold producer_row. cbv zeta.
  rewrite Hrow, Hlook. cbn [ProducerRow.Producer].
  destruct (last _); reflexivity.
Qed.

Lemma full_name_stripped rec :
  full_name rec ≠ "" ∧ Py.strip (full_name rec) = full_name rec.
Proof.
  unfold full_name. cbv zeta.
  set (text := Py.format _ +:+ " " +:+ Py.format _).
  destruct (Py.strip text) as [|ch name] eqn:Hstrip; simpl.
  - split; [discriminate|]. vm_compute. reflexivity.
  - split; [discriminate|]. rewrite <- Hstrip. apply strip_strip.
Qed.

(** X4. Whatever the lookup returned, every name in the mapping, and so the
    producer of every row built from query 2, is a string that is not empty
    and has no whitespace at either end. *)
Theorem producer_names_are_stripped (records : list sobject) :
  map_Forall (λ _ name, name ≠ "" ∧ Py.strip name = name) (producer_mapping records)
  ∧ ∀ rec, ∃ name,
      ProducerRow.Producer (producer_row (producer_mapping records) rec) = Some name
      ∧ name ≠ "" ∧ Py.strip name = name.
Proof.
  assert (Hmap : map_Forall (λ _ name, name ≠ "" ∧ Py.strip name = name)
                   (producer_mapping records)).
  { intros pid name Hlook.
    apply producer_mapping_lookup_Some in Hlook as (rec & _ & _ & ->).
    apply full_name_stripped. }
  split; [exact Hmap|]. intros rec. unfold producer_row. cbv zeta.
  destruct (producer_mapping records !! get (Producer__c rec)) as [name|] eqn:Hlook.
  - exists name. split; [reflexivity|]. exact (Hmap _ _ Hlook).
  - exists NAME_NOT_PROVIDED. split; [reflexivity|].
    split; [discriminate|]. vm_compute. reflexivity.
Qed.

(** X5. The ids handed to the resolver are the producer ids of query 2 that
    are not empty, each one once: a missing, null or empty [Producer__c] is
    never looked up, and an id shared by several rows is looked up once. *)
Theorem looked_up_ids (results_with_prod : list sobject) :
  NoDup (elements (producer_id_set results_with_prod))
  ∧ ∀ pid, pid ∈ elements (producer_id_set results_with_prod)
           ↔ pid ≠ "" ∧ ∃ rec, rec ∈ results_with_prod ∧ Producer__c rec = Val pid.
Proof.
  split; [apply NoDup_elements|]. intros pid.
  rewrite elem_of_elements. unfold producer_id_set.
  rewrite elem_of_list_to_set, list_elem_of_omap. split.
  - intros (rec & Hin & Hsome).
    destruct (Producer__c rec) as [| |p] eqn:Hp; simpl in Hsome; try discriminate.
    destruct p as [|ch p]; simpl in Hsome; [discriminate|].
    injection Hsome as <-. split; [discriminate|]. by exists rec.
  - intros (Hne & rec & Hin & Hp). exists rec. split; [exact Hin|].
    rewrite Hp. simpl. destruct pid; [by destruct Hne|reflexivity].
Qed.

(** ** What a run does to the session *)

Lemma app_singleton_neq {A} (l : list A) x : l ++ [x] ≠ l.
Proof.
  intros Heq. apply (f_equal length) in Heq. rewrite length_app in Heq.
  simpl in Heq. lia.
Qed.

Local Ltac answer_cases conn σ :=
  rewrite connect_sf_and_query_run, (report_body_run conn) by assumption;
  cbv zeta;
  destruct (query_all conn (calls σ) _) as [?e|?r1] eqn:?H1;
  [|destruct (query_all conn (calls σ ++ [_]) _) as [?e|?r2] eqn:?H2;
    [|destruct (query_all conn (calls σ ++ [_; _]) _) as [?e|?r3] eqn:?H3;
      [|rewrite get_producer_names_run;
        destruct (elements (producer_id_set _)) as [|?pid ?ids] eqn:?Hids;
        [|cbv zeta; rewrite ?sent_sent;
          destruct (query_all conn (calls (sent _ _)) _) as [?e|?r4] eqn:?H4]]]].

(** X6. A run leaves the stored connection alone, sends at most four
    queries, all added at the end of the log, and shows at most one message;
    when it shows one, both tables are empty. *)
Theorem run_effects start_date end_date σ :
  sf (connect_sf_and_query start_date end_date σ).2 = sf σ
  ∧ (∃ qs, calls (connect_sf_and_query start_date end_date σ).2 = calls σ ++ qs
           ∧ (length qs ≤ 4)%nat)
  ∧ (errors (connect_sf_and_query start_date end_date σ).2 = errors σ
     ∨ ∃ msg,
         errors (connect_sf_and_query start_date end_date σ).2 = errors σ ++ [msg]
         ∧ (connect_sf_and_query start_date end_date σ).1
           = inr (empty_frame, empty_frame)).
Proof.
  destruct (sf σ) as [conn|] eqn:Hsf.
  - answer_cases conn σ; simpl;
      (split; [exact Hsf|]);
      (split; [eexists; split; [reflexivity|simpl; lia]|]);
      first [left; reflexivity | right; eexists; split; reflexivity].
  - rewrite connect_sf_and_query_run. unfold report_body. rewrite bind_run.
    unfold session_state_sf. rewrite Hsf. simpl.
    split; [exact Hsf|]. split; [exists []; split; [by rewrite app_nil_r|simpl; lia]|].
    right. eexists. split; reflexivity.
Qed.

(** X7. On a session without a stored connection a run sends no query and
    returns two empty tables, with one message shown. *)
Theorem run_without_connection start_date end_date σ :
  sf σ = None →
  (connect_sf_and_query start_date end_date σ).1 = inr (empty_frame, empty_frame)
  ∧ calls (connect_sf_and_query start_date end_date σ).2 = calls σ
  ∧ ∃ msg, errors (connect_sf_and_query start_date end_date σ).2 = errors σ ++ [msg].
Proof.
  intros Hsf. rewrite connect_sf_and_query_run. unfold report_body.
  rewrite bind_run. unfold session_state_sf. rewrite Hsf. simpl.
  split; [reflexivity|]. split; [reflexivity|]. eexists. reflexivity.
Qed.

Lemma run_without_connection_witness :
  (connect_sf_and_query (Date 2025 1 1) (Date 2025 1 31)
     {| sf := None; calls := []; errors := [] |}).1
  = inr ([], [])
  ∧ calls (connect_sf_and_query (Date 2025 1 1) (Date 2025 1 31)
             {| sf := None; calls := []; errors := [] |}).2 = [].
Proof.
  destruct (run_without_connection (Date 2025 1 1) (Date 2025 1 31)
              {| sf := None; calls := []; errors := [] |} eq_refl)
    as (Htables & Hcalls & _).
  split; [exact Htables|exact Hcalls].
Defined.

Lemma Zsum_lob_rows records :
  Zsum (LOBRow.Count <$> (lob_row <$> records))
  = Zsum ((λ rec, default 0 (oppCount rec)) <$> records).
Proof. by rewrite <- list_fmap_compose. Qed.

Lemma Zsum_producer_rows names records :
  Zsum (ProducerRow.Count <$> (producer_row names <$> records))
  = Zsum ((λ rec, default 0 (oppCount rec)) <$> records).
Proof. by rewrite <- list_fmap_compose. Qed.

Lemma Zsum_owner_rows records :
  Zsum (ProducerRow.Count <$> (owner_row <$> records))
  = Zsum ((λ rec, default 0 (oppCount rec)) <$> records).
Proof. by rewrite <- list_fmap_compose. Qed.

(** X8. When a run on a connected session shows no message, the three
    aggregation queries were answered and the tables account for every
    record: [lob_df] has one row per record of query 1 and the same total
    count; [producer_df] has one row per record of queries 2 and 3 and its
    total count is the sum of theirs. *)
Theorem quiet_run_accounts_for_every_record conn σ start_date end_date :
  sf σ = Some conn →
  errors (connect_sf_and_query start_date end_date σ).2 = errors σ →
  ∃ type_results results_with_prod results_without_prod lob_df producer_df,
    query_all conn (calls σ) (type_query (date_filter start_date end_date))
    = inr type_results
    ∧ query_all conn (calls σ ++ [type_query (date_filter start_date end_date)])
        (query_with_producer (date_filter start_date end_date))
      = inr results_with_prod
    ∧ query_all conn
        (calls σ ++ [type_query (date_filter start_date end_date);
                     query_with_producer (date_filter start_date end_date)])
        (query_without_producer (date_filter start_date end_date))
      = inr results_without_prod
    ∧ (connect_sf_and_query start_date end_date σ).1 = inr (lob_df, producer_df)
    ∧ length lob_df = length type_results
    ∧ length producer_df
      = (length results_with_prod + length results_without_prod)%nat
    ∧ Zsum (LOBRow.Count <$> lob_df)
      = Zsum ((λ rec, default 0 (oppCount rec)) <$> type_results)
    ∧ Zsum (ProducerRow.Count <$> producer_df)
      = Zsum ((λ rec, default 0 (oppCount rec)) <$> results_with_prod)
        + Zsum ((λ rec, default 0 (oppCount rec)) <$> results_without_prod).
Proof.
  intros Hsf. answer_cases conn σ; simpl; intros Hquiet;
    try (by destruct (app_singleton_neq _ _ Hquiet));
    (eexists r1, r2, r3, _, _;
     repeat (split; [first [eassumption | reflexivity]|]);
     rewrite ?length_app, ?length_fmap, ?fmap_app, ?Zsum_app,
       ?Zsum_lob_rows, ?Zsum_producer_rows, ?Zsum_owner_rows;
     repeat split; reflexivity).
Qed.

Lemma quiet_run_accounts_for_every_record_witness :
  ∃ lob_df producer_df,
    (connect_sf_and_query (Date 2025 1 1) (Date 2025 1 31)
       (session_on (scripted sample_answers))).1 = inr (lob_df, producer_df)
    ∧ length lob_df = 2%nat ∧ length producer_df = 4%nat
    ∧ Zsum (LOBRow.Count <$> lob_df) = 7
    ∧ Zsum (ProducerRow.Count <$> producer_df) = 9.
Proof.
  destruct (quiet_run_accounts_for_every_record (scripted sample_answers)
              (session_on (scripted sample_answers))
              (Date 2025 1 1) (Date 2025 1 31) eq_refl)
    as (r1 & r2 & r3 & lob_df & producer_df
        & H1 & H2 & H3 & Hrun & Hl1 & Hl2 & Hs1 & Hs2);
    [vm_compute; reflexivity|].
  simpl in H1, H2, H3.
  injection H1 as <-. injection H2 as <-. injection H3 as <-.
  exists lob_df, producer_df. repeat split; assumption.
Defined.




(** ** The page script *)

Lemma connect_sf_and_query_sf start_date end_date σ :
  sf (connect_sf_and_query start_date end_date σ).2 = sf σ.
Proof.
  destruct (sf σ) as [conn|] eqn:Hsf.
  - answer_cases conn σ; exact Hsf.
  - rewrite connect_sf_and_query_run. unfold report_body. rewrite bind_run.
    unfold session_state_sf. rewrite Hsf. exact Hsf.
Qed.

Lemma connect_sf_and_query_no_connection start_date end_date σ :
  sf σ = None →
  connect_sf_and_query start_date end_date σ
  = (inr (empty_frame, empty_frame),
     {| sf := None; calls := calls σ;
        errors := errors σ ++ ["Error connecting to Salesforce: "
                               +:+ "st.session_state has no attribute 'sf'"] |}).
Proof.
  intros Hsf. rewrite connect_sf_and_query_run. unfold report_body.
  rewrite bind_run. unfold session_state_sf. rewrite Hsf. simpl.
  rewrite Hsf. reflexivity.
Qed.

Lemma dashboard_run w σ :
  ∃ lob_df producer_df,
    connect_sf_and_query (start_date_input w) (end_date_input w) σ
    = (inr (lob_df, producer_df),
       (connect_sf_and_query (start_date_input w) (end_date_input w) σ).2)
    ∧ dashboard w σ
      = (St.title "Opportunity Analysis Dashboard"
         :: visualization_lob lob_df ++ visualization_producer producer_df
         ++ raw_data w lob_df producer_df,
         (connect_sf_and_query (start_date_input w) (end_date_input w) σ).2).
Proof.
  unfold dashboard.
  destruct (connect_sf_and_query_returns (start_date_input w) (end_date_input w) σ)
    as ([lob_df producer_df] & σ' & ->).
  by exists lob_df, producer_df.
Qed.

Lemma dashboard_no_data w σ :
  (connect_sf_and_query (start_date_input w) (end_date_input w) σ).1
  = inr (empty_frame, empty_frame) →
  (dashboard w σ).1 = no_data_page w.
Proof.
  unfold dashboard.
  destruct (connect_sf_and_query _ _ σ) as [result σ']. simpl.
  intros ->. reflexivity.
Qed.

(** Before any login, a run in which the button was not clicked stops at the
    notice: nothing else is on the page and the session is left as it was. *)
Lemma unclicked_run_stops w b :
  unauthenticated b →
  button w = false →
  script w b
  = ([St.info "Click the button above to authenticate to Salesforce."],
     {| sf_connected := Some false; state := state b |}).
Proof.
  intros [Hflag _] Hbutton. unfold script, authentication. cbv zeta.
  rewrite Hflag, Hbutton. reflexivity.
Qed.

(** X11. Before any login, a run in which the button was clicked and the
    login was refused does not stop: it goes on to the dashboard without a
    connection. No query is sent, the page is the one without data, two
    messages are shown (the refusal, then the missing connection) and the
    browser is still unauthenticated. *)
Theorem refused_login_draws_empty_dashboard w b e :
  unauthenticated b →
  button w = true →
  login w = inl e →
  (script w b).1 = no_data_page w
  ∧ calls (state (script w b).2) = calls (state b)
  ∧ (∃ msg, errors (state (script w b).2)
            = errors (state b)
              ++ ["Error connecting to Salesforce: " +:+ message e; msg])
  ∧ unauthenticated (script w b).2.
Proof.
  intros [Hflag Hsf] Hbutton Hlogin. unfold script, authentication. cbv zeta.
  rewrite Hflag, Hbutton, Hlogin. cbn [st_error snd state sf_connected].
  unfold dashboard.
  rewrite connect_sf_and_query_no_connection by exact Hsf.
  cbn [fst snd state sf_connected calls errors sf].
  split; [reflexivity|]. split; [reflexivity|].
  split; [eexists; rewrite <- app_assoc; reflexivity|].
  split; reflexivity.
Qed.

Lemma refused_login_draws_empty_dashboard_witness :
  (script {| button := true; login := inl (Exception "INVALID_LOGIN");
             start_date_input := Date 2025 1 1; end_date_input := Date 2025 1 31;
             show_raw_data := false |} new_browser).1
  = [St.title "Opportunity Analysis Dashboard";
     St.subheader "Opportunities by Line of Business Category";
     St.info "No Line of Business data available for the selected date range.";
     St.subheader "Opportunities per Producer by LOB Category";
     St.info "No producer data available for the selected date range."].
Proof.
  exact (proj1 (refused_login_draws_empty_dashboard
                  {| button := true; login := inl (Exception "INVALID_LOGIN");
                     start_date_input := Date 2025 1 1;
                     end_date_input := Date 2025 1 31;
                     show_raw_data := false |}
                  new_browser (Exception "INVALID_LOGIN")
                  (conj eq_refl eq_refl) eq_refl eq_refl)).
Defined.

Lemma script_connected w b :
  sf_connected b = Some true →
  script w b
  = ((dashboard w (state b)).1,
     {| sf_connected := Some true; state := (dashboard w (state b)).2 |}).
Proof.
  intros Hflag. unfold script, authentication. cbv zeta. rewrite Hflag. simpl.
  destruct (dashboard w (state b)) as [page σ']. reflexivity.
Qed.

Lemma dashboard_sf w σ : sf (dashboard w σ).2 = sf σ.
Proof.
  destruct (dashboard_run w σ) as (lob_df & producer_df & _ & ->).
  apply connect_sf_and_query_sf.
Qed.

Lemma dashboard_widgets w w' σ :
  start_date_input w' = start_date_input w →
  end_date_input w' = end_date_input w →
  show_raw_data w' = show_raw_data w →
  dashboard w' σ = dashboard w σ.
Proof.
  intros Hstart Hend Hraw. unfold dashboard, raw_data.
  by rewrite Hstart, Hend, Hraw.
Qed.

(** X12. Once the flag says connected, a run never logs in again: the button
    and the outcome a login would have play no part in the run (two runs that
    agree on the dates and the checkbox do the same), the flag stays and the
    stored connection is kept. *)
Theorem connected_run_ignores_login w w' b :
  sf_connected b = Some true →
  start_date_input w' = start_date_input w →
  end_date_input w' = end_date_input w →
  show_raw_data w' = show_raw_data w →
  script w' b = script w b
  ∧ sf_connected (script w b).2 = Some true
  ∧ sf (state (script w b).2) = sf (state b).
Proof.
  intros Hflag Hstart Hend Hraw. rewrite !script_connected by exact Hflag.
  rewrite (dashboard_widgets w w') by assumption.
  split; [reflexivity|]. split; [reflexivity|]. apply dashboard_sf.
Qed.

Lemma connected_run_ignores_login_witness :
  script {| button := true; login := inl (Exception "INVALID_LOGIN");
            start_date_input := Date 2025 1 1; end_date_input := Date 2025 1 31;
            show_raw_data := false |}
    {| sf_connected := Some true; state := session_on (scripted sample_answers) |}
  = script {| button := false; login := inr (scripted []);
              start_date_input := Date 2025 1 1; end_date_input := Date 2025 1 31;
              show_raw_data := false |}
      {| sf_connected := Some true; state := session_on (scripted sample_answers) |}.
Proof.
  exact (proj1 (connected_run_ignores_login
                  {| button := false; login := inr (scripted []);
                     start_date_input := Date 2025 1 1;
                     end_date_input := Date 2025 1 31; show_raw_data := false |}
                  {| button := true; login := inl (Exception "INVALID_LOGIN");
                     start_date_input := Date 2025 1 1;
                     end_date_input := Date 2025 1 31; show_raw_data := false |}
                  {| sf_connected := Some true;
                     state := session_on (scripted sample_answers) |}
                  eq_refl eq_refl eq_refl eq_refl)).
Defined.

(** X13. A login that succeeds is used in the same run: the connection is
    stored, the flag is set, the page opens with the confirmation and the
    title, and the first aggregation query goes to the new connection at
    once. *)
Theorem accepted_login_runs_dashboard w b conn :
  default false (sf_connected b) = false →
  button w = true →
  login w = inr conn →
  sf_connected (script w b).2 = Some true
  ∧ sf (state (script w b).2) = Some conn
  ∧ (∃ page, (script w b).1
             = St.success "Connected to Salesforce!"
               :: St.title "Opportunity Analysis Dashboard" :: page)
  ∧ ∃ qs, calls (state (script w b).2)
          = calls (state b)
            ++ type_query (date_filter (start_date_input w) (end_date_input w))
               :: qs.
Proof.
  intros Hflag Hbutton Hlogin. unfold script, authentication. cbv zeta.
  rewrite Hflag, Hbutton, Hlogin. cbn [state sf_connected].
  set (σ := {| sf := Some conn; calls := calls (state b);
               errors := errors (state b) |}).
  destruct (dashboard_run w σ) as (lob_df & producer_df & _ & Hdash).
  rewrite Hdash. cbn [fst snd state sf_connected].
  split; [reflexivity|]. split; [apply connect_sf_and_query_sf|].
  split; [eexists; reflexivity|].
  assert (Hsf : sf σ = Some conn) by reflexivity.
  change (calls (state b)) with (calls σ).
  answer_cases conn σ; simpl; eexists; reflexivity.
Qed.

Lemma accepted_login_runs_dashboard_witness :
  sf_connected
    (script {| button := true; login := inr (scripted sample_answers);
               start_date_input := Date 2025 1 1; end_date_input := Date 2025 1 31;
               show_raw_data := false |} new_browser).2
  = Some true.
Proof.
  exact (proj1 (accepted_login_runs_dashboard
                  {| button := true; login := inr (scripted sample_answers);
                     start_date_input := Date 2025 1 1;
                     end_date_input := Date 2025 1 31; show_raw_data := false |}
                  new_browser (scripted sample_answers)
                  eq_refl eq_refl eq_refl)).
Defined.

Local Ltac no_uncaught :=
  repeat first
    [ assumption
    | apply not_elem_of_nil
    | apply not_elem_of_cons; split; [discriminate|]
    | apply not_elem_of_app; split ].

(** X14. No run ends in an exception that is not caught: the report of one
    is never on the page. *)
Theorem script_never_raises w b e : St.uncaught e ∉ (script w b).1.
Proof.
  assert (Hdash : ∀ σ, St.uncaught e ∉ (dashboard w σ).1).
  { intros σ. destruct (dashboard_run w σ) as (lob_df & producer_df & _ & ->).
    cbn [fst]. unfold visualization_lob, visualization_producer, raw_data.
    destruct (grouped_lob lob_df), (grouped_producer producer_df),
      (show_raw_data w); no_uncaught. }
  unfold script, authentication. cbv zeta.
  destruct (default false (sf_connected b)).
  - cbn [state sf_connected]. specialize (Hdash (state b)).
    destruct (dashboard w (state b)) as [page σ']. exact Hdash.
  - destruct (button w); [|cbn [fst]; no_uncaught].
    destruct (login w) as [e'|conn]; cbn [state sf_connected];
      match goal with
      | |- context [dashboard w ?σ] =>
          specialize (Hdash σ); destruct (dashboard w σ) as [page σ']
      end; cbn [fst app] in *; no_uncaught.
Qed.

(** X15. On a connected browser, a run in which a query is answered with an
    exception draws the page without data: the title, the two notices and,
    when the checkbox is ticked, two empty raw tables; no chart. *)
Theorem failed_query_page w b conn i :
  sf_connected b = Some true →
  sf (state b) = Some conn →
  (length (calls (state b)) ≤ i)%nat →
  call_failed conn (calls (state (script w b).2)) i →
  (script w b).1 = no_data_page w.
Proof.
  intros Hflag Hsf Hi. rewrite script_connected by exact Hflag.
  cbn [fst snd state]. intros Hfail. apply dashboard_no_data.
  destruct (dashboard_run w (state b)) as (lob_df & producer_df & _ & Hdash).
  rewrite Hdash in Hfail. cbn [snd] in Hfail.
  destruct (connect_sf_and_query_cases conn (state b)
              (start_date_input w) (end_date_input w) Hsf)
    as [[σ' ->]|(tables & qs & Hrun & Hans)]; [reflexivity|].
  rewrite Hrun in Hfail. cbn [snd sent calls] in Hfail.
  by destruct (answered_no_failure conn (calls (state b)) qs Hans i Hi).
Qed.

Lemma failed_query_page_witness :
  (script {| button := false; login := inl (Exception "unused");
             start_date_input := Date 2025 1 1; end_date_input := Date 2025 1 31;
             show_raw_data := true |}
     {| sf_connected := Some true;
        state := session_on (scripted failing_answers) |}).1
  = [St.title "Opportunity Analysis Dashboard";
     St.subheader "Opportunities by Line of Business Category";
     St.info "No Line of Business data available for the selected date range.";
     St.subheader "Opportunities per Producer by LOB Category";
     St.info "No producer data available for the selected date range.";
     St.subheader "Raw Data (Overall LOB)"; St.dataframe (St.lob_frame []);
     St.subheader "Raw Data (Producer)"; St.dataframe (St.producer_frame [])].
Proof.
  apply (failed_query_page
           {| button := false; login := inl (Exception "unused");
              start_date_input := Date 2025 1 1; end_date_input := Date 2025 1 31;
              show_raw_data := true |}
           {| sf_connected := Some true;
              state := session_on (scripted failing_answers) |}
           (scripted failing_answers) 1);
    [reflexivity | reflexivity | simpl; lia |].
  eexists _, _. split; reflexivity.
Defined.

Lemma script_keeps_flag_honest w b :
  (default false (sf_connected b) = true ↔ is_Some (sf (state b))) →
  default false (sf_connected (script w b).2) = true
  ↔ is_Some (sf (state (script w b).2)).
Proof.
  intros Hinv. unfold script, authentication. cbv zeta.
  destruct (default false (sf_connected b)) eqn:Hflag.
  - cbn [state sf_connected].
    pose proof (dashboard_sf w (state b)) as Hsf.
    destruct (dashboard w (state b)) as [page σ']. cbn [fst snd state sf_connected] in *.
    rewrite Hsf. exact Hinv.
  - destruct (button w); [|exact Hinv].
    destruct (login w) as [e|conn]; cbn [state sf_connected];
      match goal with
      | |- context [dashboard w ?σ] =>
          pose proof (dashboard_sf w σ) as Hsf;
          destruct (dashboard w σ) as [page σ']
      end; cbn [fst snd state sf_connected st_error sf] in *; rewrite Hsf.
    + exact Hinv.
    + split; [eauto|reflexivity].
Qed.

Lemma reachable_flag b :
  reachable b →
  default false (sf_connected b) = true ↔ is_Some (sf (state b)).
Proof.
  induction 1 as [|w b _ IH].
  - simpl. split; [discriminate|]. intros [conn Hconn]. discriminate Hconn.
  - apply script_keeps_flag_honest, IH.
Qed.

(** X16. In every state a browser session can reach, the flag
    [sf_connected] is true exactly when a connection is stored: the dashboard
    of a connected browser always finds its connection, and a stored
    connection is never left behind an unset flag. *)
Theorem flag_tells_the_truth b :
  reachable b →
  default false (sf_connected b) = true ↔ is_Some (sf (state b)).
Proof. apply reachable_flag. Qed.

Lemma flag_tells_the_truth_witness :
  default false
    (sf_connected
       (script {| button := true; login := inr (scripted sample_answers);
                  start_date_input := Date 2025 1 1;
                  end_date_input := Date 2025 1 31; show_raw_data := false |}
          new_browser).2) = true
  ↔ is_Some
      (sf (state
             (script {| button := true; login := inr (scripted sample_answers);
                        start_date_input := Date 2025 1 1;
                        end_date_input := Date 2025 1 31; show_raw_data := false |}
                new_browser).2)).
Proof.
  apply flag_tells_the_truth. apply reachable_run, reachable_new.
Defined.

(** ** The grouped tables *)

Lemma groupby_sum_keys lob_df :
  (groupby_sum lob_df).*1
  = merge_sort String.le (remove_dups (LOBRow.LOB_Category <$> lob_df)).
Proof.
  unfold groupby_sum. rewrite <- list_fmap_compose. apply list_fmap_id.
Qed.

(** X17. The table behind the pie chart has one row per category present
    among the records of query 1, in increasing order of the category and
    with no category twice, hence at most seven rows. When every count fits a
    64-bit signed integer, the count of a row is the sum of the counts of the
    records of its category taken in int64: the sum itself when it fits, the
    sum wrapped around when it does not. *)
Theorem grouped_lob_rows (type_results : list sobject) :
  StronglySorted String.le (groupby_sum (append_rows lob_row [] type_results)).*1
  ∧ NoDup (groupby_sum (append_rows lob_row [] type_results)).*1
  ∧ (length (groupby_sum (append_rows lob_row [] type_results)) ≤ 7)%nat
  ∧ (∀ category,
       category ∈ (groupby_sum (append_rows lob_row [] type_results)).*1
       ↔ ∃ rec, rec ∈ type_results
                ∧ map_lob (get_default (Type_ rec) "Other") = category)
  ∧ ((∀ rec, rec ∈ type_results → in_int64 (default 0 (oppCount rec))) →
     ∀ category count,
       (category, count) ∈ groupby_sum (append_rows lob_row [] type_results) →
       count
       = wrap_int64
           (Zsum ((λ rec, default 0 (oppCount rec)) <$>
                  filter (λ rec, map_lob (get_default (Type_ rec) "Other") = category)
                    type_results))
       ∧ (in_int64
            (Zsum ((λ rec, default 0 (oppCount rec)) <$>
                   filter (λ rec, map_lob (get_default (Type_ rec) "Other") = category)
                     type_results)) →
          count
          = Zsum ((λ rec, default 0 (oppCount rec)) <$>
                  filter (λ rec, map_lob (get_default (Type_ rec) "Other") = category)
                    type_results))).
Proof.
  rewrite append_rows_fmap, app_nil_l.
  set (lob_df := lob_row <$> type_results).
  assert (Hperm : (groupby_sum lob_df).*1
                  ≡ₚ remove_dups (LOBRow.LOB_Category <$> lob_df)).
  { rewrite groupby_sum_keys. apply merge_sort_Permutation. }
  assert (Hmem : ∀ category, category ∈ (groupby_sum lob_df).*1
                 ↔ ∃ rec, rec ∈ type_results
                          ∧ map_lob (get_default (Type_ rec) "Other") = category).
  { intros category. rewrite Hperm, elem_of_remove_dups. unfold lob_df.
    rewrite <- list_fmap_compose, list_elem_of_fmap. split.
    - intros (rec & -> & Hin). by exists rec.
    - intros (rec & Hin & <-). by exists rec. }
  assert (Hnd : NoDup (groupby_sum lob_df).*1).
  { rewrite Hperm. apply NoDup_remove_dups. }
  split; [rewrite groupby_sum_keys; apply StronglySorted_merge_sort; apply _|].
  split; [exact Hnd|]. split; [|split; [exact Hmem|]].
  - rewrite <- (length_fmap fst).
    change 7%nat with (length CATEGORIES). apply submseteq_length.
    apply NoDup_submseteq; [exact Hnd|].
    intros category (rec & _ & <-)%Hmem. apply map_lob_in_CATEGORIES.
  - intros _ category count Hin. unfold groupby_sum in Hin.
    apply list_elem_of_fmap in Hin as (k & Heq & _). injection Heq as -> ->.
    unfold lob_df. rewrite lob_rows_of_category.
    split; [reflexivity|]. apply wrap_int64_id.
Qed.

(** X17 on three records, two of them in the category "Homeowners". *)
Lemma grouped_lob_rows_witness :
  groupby_sum (append_rows lob_row []
                 [type_record (Val "Homeowners") 5;
                  type_record (Val "Umbrella") 2;
                  type_record (Val "Dwelling Fire - PL") 4])
  = [("Homeowners", 9); ("Umbrella", 2)]
  ∧ 9 = Zsum ((λ rec, default 0 (oppCount rec)) <$>
              filter (λ rec, map_lob (get_default (Type_ rec) "Other") = "Homeowners")
                [type_record (Val "Homeowners") 5;
                 type_record (Val "Umbrella") 2;
                 type_record (Val "Dwelling Fire - PL") 4]).
Proof.
  split; [vm_compute; reflexivity|].
  destruct (grouped_lob_rows [type_record (Val "Homeowners") 5;
                              type_record (Val "Umbrella") 2;
                              type_record (Val "Dwelling Fire - PL") 4])
    as (_ & _ & _ & _ & Hcount).
  assert (Hfit : ∀ rec, rec ∈ [type_record (Val "Homeowners") 5;
                               type_record (Val "Umbrella") 2;
                               type_record (Val "Dwelling Fire - PL") 4] →
                 in_int64 (default 0 (oppCount rec))).
  { intros rec Hin. apply in_int64_bounds.
    rewrite !elem_of_cons, elem_of_nil in Hin.
    destruct Hin as [->|[->|[->|[]]]]; simpl; lia. }
  assert (Hrow : ("Homeowners", 9)
                 ∈ groupby_sum (append_rows lob_row []
                                  [type_record (Val "Homeowners") 5;
                                   type_record (Val "Umbrella") 2;
                                   type_record (Val "Dwelling Fire - PL") 4])).
  { apply (bool_decide_unpack _). vm_compute. reflexivity. }
  destruct (Hcount Hfit "Homeowners" 9 Hrow) as [_ Hsum].
  apply Hsum. apply in_int64_bounds. vm_compute. split; [discriminate|reflexivity].
Defined.

Lemma Zsum_indicator {K} `{EqDecision K} (c : K) (x : Z) (keys : list K) :
  NoDup keys →
  Zsum ((λ k, if decide (c = k) then x else 0) <$> keys)
  = if decide (c ∈ keys) then x else 0.
Proof.
  induction 1 as [|k keys Hk Hnd IH]; csimpl; [reflexivity|].
  rewrite IH. clear IH.
  destruct (decide (c = k)) as [->|Hne].
  - rewrite (decide_False (P := k ∈ keys)) by exact Hk.
    rewrite (decide_True (P := k ∈ k :: keys)) by left. lia.
  - destruct (decide (c ∈ keys)) as [Hin|Hin].
    + rewrite (decide_True (P := c ∈ k :: keys)) by (right; exact Hin). lia.
    + rewrite (decide_False (P := c ∈ k :: keys)); [lia|].
      intros [?| ?]%elem_of_cons; tauto.
Qed.

Lemma Zsum_zeros {K} (keys : list K) : Zsum ((λ _, 0) <$> keys) = 0.
Proof. induction keys as [|k keys IH]; csimpl; lia. Qed.

(** Grouping by a key that may be missing: the per-key sums over distinct
    keys that cover the rows add up to the sum over the rows that have a
    key. *)
Lemma Zsum_groups {R K} `{EqDecision K} (key : R → option K) (val : R → Z)
    (df : list R) (keys : list K) :
  NoDup keys →
  (∀ r k, r ∈ df → key r = Some k → k ∈ keys) →
  Zsum ((λ k, Zsum (val <$> filter (λ r, key r = Some k) df)) <$> keys)
  = Zsum (val <$> filter (λ r, is_Some (key r)) df).
Proof.
  intros Hnd. induction df as [|r df IH]; intros Hcover.
  - rewrite !filter_nil. csimpl. apply Zsum_zeros.
  - assert (Hrest : ∀ r' k, r' ∈ df → key r' = Some k → k ∈ keys).
    { intros r' k Hin. apply Hcover. by right. }
    specialize (IH Hrest). rewrite (filter_cons (λ r, is_Some (key r))).
    destruct (key r) as [c|] eqn:Hkey.
    + rewrite decide_True by eauto. csimpl. rewrite <- IH.
      transitivity (Zsum ((λ k,
          (if decide (c = k) then val r else 0)
          + Zsum (val <$> filter (λ r, key r = Some k) df)) <$> keys)).
      * f_equal. apply list_fmap_ext. intros _ k _. rewrite filter_cons.
        destruct (decide (c = k)) as [->|Hne].
        -- by rewrite decide_True by exact Hkey.
        -- rewrite decide_False; [reflexivity|]. rewrite Hkey. congruence.
      * rewrite Zsum_fmap_add, Zsum_indicator by exact Hnd.
        rewrite decide_True; [reflexivity|]. apply (Hcover r); [left|exact Hkey].
    + rewrite decide_False by apply is_Some_None. rewrite <- IH.
      f_equal. apply list_fmap_ext. intros _ k _. rewrite filter_cons.
      rewrite decide_False; [reflexivity|]. rewrite Hkey. discriminate.
Qed.

Lemma groupby2_sum_keys producer_df :
  (groupby2_sum producer_df).*1
  = merge_sort key_le (remove_dups (omap producer_key producer_df)).
Proof.
  unfold groupby2_sum. rewrite <- list_fmap_compose. apply list_fmap_id.
Qed.

Lemma groupby2_sum_total (producer_df : list ProducerRow.t) :
  (∀ key, in_int64 (Zsum (ProducerRow.Count <$>
                     filter (λ row, producer_key row = Some key) producer_df))) →
  Zsum ((groupby2_sum producer_df).*2)
  = Zsum (ProducerRow.Count <$>
          filter (λ row, is_Some (ProducerRow.Producer row)) producer_df).
Proof.
  intros Hfit. unfold groupby2_sum. rewrite <- list_fmap_compose.
  set (per_key := snd ∘ _).
  rewrite (Zsum_Permutation _
             (per_key <$> remove_dups (omap producer_key producer_df)))
    by apply fmap_Permutation, merge_sort_Permutation.
  rewrite (list_fmap_ext per_key
             (λ k, Zsum (ProducerRow.Count <$>
                     filter (λ row, producer_key row = Some k) producer_df)))
    by (intros _ k _; apply wrap_int64_id, Hfit).
  clear per_key.
  rewrite (Zsum_groups producer_key ProducerRow.Count producer_df).
  - f_equal. f_equal. apply list_filter_iff. intros row. unfold producer_key.
    destruct (ProducerRow.Producer row); simpl; split; intros [x Hx]; eauto;
      discriminate.
  - apply NoDup_remove_dups.
  - intros row k Hin Hkey. apply elem_of_remove_dups, list_elem_of_omap. eauto.
Qed.

(** X18. The table behind the bar chart has one row per pair of a producer
    name and a category that occurs in [producer_df]; a row of [producer_df]
    whose producer is None belongs to no group. When every count fits a 64-bit
    signed integer, the count of a row of the grouped table is the sum, taken
    in int64, of the counts of its group; when the sum of every group fits
    too, the counts of the grouped table add up to the counts of the named
    rows only. *)
Theorem grouped_producer_rows (producer_df : list ProducerRow.t) :
  NoDup (groupby2_sum producer_df).*1
  ∧ (∀ producer category,
       (producer, category) ∈ (groupby2_sum producer_df).*1
       ↔ ∃ row, row ∈ producer_df
                ∧ ProducerRow.Producer row = Some producer
                ∧ ProducerRow.LOB_Category row = category)
  ∧ ((∀ row, row ∈ producer_df → in_int64 (ProducerRow.Count row)) →
     (∀ key count,
        (key, count) ∈ groupby2_sum producer_df →
        count
        = wrap_int64
            (Zsum (ProducerRow.Count <$>
                   filter (λ row, producer_key row = Some key) producer_df)))
     ∧ ((∀ key,
           in_int64 (Zsum (ProducerRow.Count <$>
                           filter (λ row, producer_key row = Some key)
                             producer_df))) →
        Zsum ((groupby2_sum producer_df).*2)
        = Zsum (ProducerRow.Count <$>
                filter (λ row, is_Some (ProducerRow.Producer row)) producer_df))).
Proof.
  assert (Hperm : (groupby2_sum producer_df).*1
                  ≡ₚ remove_dups (omap producer_key producer_df)).
  { rewrite groupby2_sum_keys. apply merge_sort_Permutation. }
  split; [rewrite Hperm; apply NoDup_remove_dups|]. split.
  - intros producer category.
    rewrite Hperm, elem_of_remove_dups, list_elem_of_omap. unfold producer_key.
    split; intros (row & Hin & Hrow); exists row; (split; [exact Hin|]).
    + destruct (ProducerRow.Producer row) as [p|]; [|discriminate].
      simpl in Hrow. injection Hrow as -> ->. by split.
    + destruct Hrow as [-> ->]. reflexivity.
  - intros _. split; [|apply groupby2_sum_total].
    intros key count Hin. unfold groupby2_sum in Hin.
    apply list_elem_of_fmap in Hin as (k & Heq & _). by injection Heq as -> ->.
Qed.

(** X18 on three rows, one of them without a producer name. *)
Lemma grouped_producer_rows_witness :
  Zsum ((groupby2_sum
           [{| ProducerRow.Producer := Some "Jane Doe";
               ProducerRow.Type_ := Some "Yacht";
               ProducerRow.LOB_Category := "Boat"; ProducerRow.Count := 3 |};
            {| ProducerRow.Producer := None;
               ProducerRow.Type_ := Some "Life";
               ProducerRow.LOB_Category := "Other"; ProducerRow.Count := 6 |};
            {| ProducerRow.Producer := Some "Jane Doe";
               ProducerRow.Type_ := Some "Boat";
               ProducerRow.LOB_Category := "Boat"; ProducerRow.Count := 4 |}]).*2)
  = 7.
Proof.
  set (producer_df :=
         [{| ProducerRow.Producer := Some "Jane Doe";
             ProducerRow.Type_ := Some "Yacht";
             ProducerRow.LOB_Category := "Boat"; ProducerRow.Count := 3 |};
          {| ProducerRow.Producer := None;
             ProducerRow.Type_ := Some "Life";
             ProducerRow.LOB_Category := "Other"; ProducerRow.Count := 6 |};
          {| ProducerRow.Producer := Some "Jane Doe";
             ProducerRow.Type_ := Some "Boat";
             ProducerRow.LOB_Category := "Boat"; ProducerRow.Count := 4 |}]).
  assert (Hpos : ∀ row, row ∈ producer_df → 0 ≤ ProducerRow.Count row).
  { intros row Hin. unfold producer_df in Hin.
    rewrite !elem_of_cons, elem_of_nil in Hin.
    destruct Hin as [->|[->|[->|[]]]]; simpl; lia. }
  destruct (grouped_producer_rows producer_df) as (_ & _ & Hsums).
  destruct Hsums as [_ Htotal].
  - intros row Hin. apply in_int64_bounds. specialize (Hpos row Hin).
    unfold producer_df in Hin. rewrite !elem_of_cons, elem_of_nil in Hin.
    destruct Hin as [->|[->|[->|[]]]]; simpl; lia.
  - rewrite Htotal; [vm_compute; reflexivity|].
    intros key. apply nonnegative_sums_in_int64; [exact Hpos|].
    vm_compute. reflexivity.
Defined.

Lemma filter_all {A} (P : A → Prop) `{!∀ x, Decision (P x)} (l : list A) :
  (∀ x, P x) → filter P l = l.
Proof.
  intros Hall. induction l as [|x l IH]; [reflexivity|].
  rewrite filter_cons_True by apply Hall. by rewrite IH.
Qed.

Lemma owner_row_producer rec :
  is_Some (ProducerRow.Producer (owner_row rec)) ↔ owner_name_is_null rec = false.
Proof.
  unfold owner_row, owner_name_is_null. cbv zeta. cbn [ProducerRow.Producer].
  destruct (Owner rec) as [| |owner]; simpl; [split; eauto..|].
  destruct (Name owner); simpl; split; eauto; try discriminate.
  intros [x Hx]. discriminate Hx.
Qed.

(** X19. When the counts of queries 2 and 3 are not negative and add up to
    less than [2^63], the counts of the table behind the bar chart add up to
    the counts of all the records of query 2 and of the records of query 3
    other than those whose owner has a null [Name]: the latter are in the raw
    producer table but in no bar. *)
Theorem bar_chart_total (producer_names : gmap (option string) string)
    (results_with_prod results_without_prod : list sobject) :
  (∀ rec, rec ∈ results_with_prod ++ results_without_prod →
          0 ≤ default 0 (oppCount rec)) →
  Zsum ((λ rec, default 0 (oppCount rec)) <$> results_with_prod)
  + Zsum ((λ rec, default 0 (oppCount rec)) <$> results_without_prod) < 2 ^ 63 →
  Zsum ((groupby2_sum
           (append_rows owner_row
              (append_rows (producer_row producer_names) [] results_with_prod)
              results_without_prod)).*2)
  = Zsum ((λ rec, default 0 (oppCount rec)) <$> results_with_prod)
    + Zsum ((λ rec, default 0 (oppCount rec)) <$>
            filter (λ rec, owner_name_is_null rec = false) results_without_prod).
Proof.
  intros Hpos Htotal. rewrite !append_rows_fmap, app_nil_l.
  rewrite groupby2_sum_total.
  - rewrite filter_app, fmap_app, Zsum_app, !filter_fmap_comm.
    rewrite <- !list_fmap_compose. f_equal.
    + f_equal. rewrite filter_all; [reflexivity|].
      intros rec. unfold producer_row. cbv zeta. cbn [ProducerRow.Producer]. eauto.
    + f_equal. f_equal. apply list_filter_iff. intros rec. apply owner_row_producer.
  - intros key. apply nonnegative_sums_in_int64.
    + intros row [Hrow|Hrow]%elem_of_app;
        apply list_elem_of_fmap in Hrow as (rec & -> & Hin);
        (apply (Hpos rec), elem_of_app; auto).
    + by rewrite fmap_app, Zsum_app, Zsum_producer_rows, Zsum_owner_rows.
Qed.

(** X19 on one record of query 2 and two of query 3, one of them with an
    owner whose name is null. *)
Lemma bar_chart_total_witness :
  Zsum ((groupby2_sum
           (append_rows owner_row
              (append_rows (producer_row ∅) []
                 [with_producer_record (Val "P2") (Val "Yacht") 3])
              [without_producer_record (Val {| Name := Val "Alex Kim" |})
                 (Val "Life") 4;
               without_producer_record (Val {| Name := Null |})
                 (Val "Life") 6])).*2)
  = 7.
Proof.
  rewrite bar_chart_total.
  - vm_compute. reflexivity.
  - intros rec Hin. cbn [app] in Hin. rewrite !elem_of_cons, elem_of_nil in Hin.
    destruct Hin as [->|[->|[->|[]]]]; simpl; lia.
  - vm_compute. reflexivity.
Defined.

(** ** The shape of the date filter *)

Lemma has_shape_app shape1 shape2 s1 s2 :
  has_shape shape1 s1 = true →
  has_shape shape2 s2 = true →
  has_shape (shape1 +:+ shape2) (s1 +:+ s2) = true.
Proof.
  revert s1. induction shape1 as [|p shape1 IH]; intros [|ch s1]; simpl;
    try discriminate; [auto|].
  intros [Hch Hrest]%andb_true_iff Hshape2.
  by rewrite Hch, (IH s1 Hrest Hshape2).
Qed.

Lemma four_digits n :
  (n < 100 * 100)%nat → has_shape "####" (Py.zfill 4 (Py.str_nat n)) = true.
Proof.
  assert (Hall : forallb (λ n, has_shape "####" (Py.zfill 4 (Py.str_nat n)))
                   (seq 0 (100 * 100)) = true) by (vm_compute; reflexivity).
  intros Hn. rewrite forallb_forall in Hall. apply Hall, in_seq. lia.
Qed.

Lemma two_digits n :
  (n < 100)%nat → has_shape "##" (Py.zfill 2 (Py.str_nat n)) = true.
Proof.
  assert (Hall : forallb (λ n, has_shape "##" (Py.zfill 2 (Py.str_nat n)))
                   (seq 0 100) = true) by (vm_compute; reflexivity).
  intros Hn. rewrite forallb_forall in Hall. apply Hall, in_seq. lia.
Qed.

Local Ltac date_shape :=
  apply has_shape_app; [apply four_digits; lia|];
  apply (has_shape_app "-" _ "-"); [reflexivity|];
  apply has_shape_app; [apply two_digits; lia|];
  apply (has_shape_app "-" _ "-"); [reflexivity|];
  apply has_shape_app; [apply two_digits; lia|reflexivity].

Lemma start_date_str_shape d :
  valid_date d → has_shape "####-##-##T00:00:00Z" (start_date_str d) = true.
Proof.
  intros (Hy & Hm & Hd).
  change (start_date_str d)
    with (Py.str_nat (year d)
          +:+ ("-" +:+ (Py.zfill 2 (Py.str_nat (month d))
          +:+ ("-" +:+ (Py.zfill 2 (Py.str_nat (day d)) +:+ "T00:00:00Z"))))).
  rewrite <- (year_four_digits (year d) Hy).
  change "####-##-##T00:00:00Z"
    with ("####" +:+ ("-" +:+ ("##" +:+ ("-" +:+ ("##" +:+ "T00:00:00Z"))))).
  date_shape.
Qed.

Lemma end_date_str_shape d :
  valid_date d → has_shape "####-##-##T23:59:59Z" (end_date_str d) = true.
Proof.
  intros (Hy & Hm & Hd).
  change (end_date_str d)
    with (Py.str_nat (year d)
          +:+ ("-" +:+ (Py.zfill 2 (Py.str_nat (month d))
          +:+ ("-" +:+ (Py.zfill 2 (Py.str_nat (day d)) +:+ "T23:59:59Z"))))).
  rewrite <- (year_four_digits (year d) Hy).
  change "####-##-##T23:59:59Z"
    with ("####" +:+ ("-" +:+ ("##" +:+ ("-" +:+ ("##" +:+ "T23:59:59Z"))))).
  date_shape.
Qed.

(** X20. For every pair of dates of the years 1000 to 9999 the filter is a
    well-formed text of fixed width: each bound is a dateTime literal with a
    four-digit year and two-digit month and day, zero-padded, followed by the
    fixed time of day and [Z]. *)
Theorem date_filter_shape (start_date end_date : date) :
  valid_date start_date →
  valid_date end_date →
  has_shape
    "CreatedDate >= ####-##-##T00:00:00Z AND CreatedDate <= ####-##-##T23:59:59Z"
    (date_filter start_date end_date) = true.
Proof.
  intros Hstart Hend. unfold date_filter.
  change "CreatedDate >= ####-##-##T00:00:00Z AND CreatedDate <= ####-##-##T23:59:59Z"
    with ("CreatedDate >= " +:+ ("####-##-##T00:00:00Z"
          +:+ (" AND CreatedDate <= " +:+ "####-##-##T23:59:59Z"))).
  apply has_shape_app; [reflexivity|].
  apply has_shape_app; [apply start_date_str_shape, Hstart|].
  apply has_shape_app; [reflexivity|apply end_date_str_shape, Hend].
Qed.

Lemma date_filter_shape_witness :
  has_shape
    "CreatedDate >= ####-##-##T00:00:00Z AND CreatedDate <= ####-##-##T23:59:59Z"
    (date_filter (Date 2025 6 5) (Date 2025 12 31)) = true
  ∧ date_filter (Date 2025 6 5) (Date 2025 12 31)
    = "CreatedDate >= 2025-06-05T00:00:00Z AND CreatedDate <= 2025-12-31T23:59:59Z".
Proof.
  split; [|reflexivity].
  apply date_filter_shape; unfold valid_date; simpl; lia.
Defined.

(** ** Before the first login *)

(** A run that leaves no connection stored started without one and sent no
    query. *)
Lemma script_without_connection w b :
  (default false (sf_connected b) = true ↔ is_Some (sf (state b))) →
  sf (state (script w b).2) = None →
  sf (state b) = None ∧ calls (state (script w b).2) = calls (state b).
Proof.
  intros Hflag. unfold script, authentication. cbv zeta.
  destruct (default false (sf_connected b)) eqn:Hconnected.
  - cbn [state sf_connected].
    pose proof (dashboard_sf w (state b)) as Hsf.
    destruct (dashboard w (state b)) as [page σ']. cbn [fst snd state] in *.
    rewrite Hsf. intros Hnone. destruct (proj1 Hflag eq_refl) as [conn Hconn].
    congruence.
  - destruct (button w); [|by cbn [snd state]].
    destruct (login w) as [e|conn]; cbn [state sf_connected].
    + set (σ := (st_error _ (state b)).2).
      assert (Hσ : sf σ = sf (state b)) by reflexivity.
      pose proof (dashboard_sf w σ) as Hsf. rewrite Hσ in Hsf.
      assert (Hrun : sf (state b) = None → calls (dashboard w σ).2 = calls (state b)).
      { intros Hb. unfold dashboard.
        rewrite connect_sf_and_query_no_connection by (rewrite Hσ; exact Hb).
        reflexivity. }
      destruct (dashboard w σ) as [page σ']. cbn [fst snd state] in *.
      rewrite Hsf. intros Hb. split; [exact Hb|exact (Hrun Hb)].
    + set (σ := {| sf := Some conn; calls := _; errors := _ |}).
      pose proof (dashboard_sf w σ) as Hsf.
      destruct (dashboard w σ) as [page σ']. cbn [fst snd state] in *.
      rewrite Hsf. discriminate.
Qed.

(** X10. As long as no login has succeeded, no query has been sent: in every
    state a browser session can reach without a stored connection, the log of
    queries is empty and the flag is not set, however many times the page was
    run, the button clicked and the login refused. *)
Theorem no_query_before_login b :
  reachable b →
  sf (state b) = None →
  calls (state b) = [] ∧ default false (sf_connected b) = false.
Proof.
  intros Hreach. pose proof (reachable_flag b Hreach) as Hflag.
  intros Hnone. split.
  - induction Hreach as [|w b Hreach IH]; [reflexivity|].
    destruct (script_without_connection w b (reachable_flag b Hreach) Hnone)
      as [Hb ->].
    apply IH; [apply reachable_flag, Hreach|exact Hb].
  - destruct (default false (sf_connected b)); [|reflexivity].
    destruct (proj1 Hflag eq_refl) as [conn Hconn]. congruence.
Qed.

Lemma no_query_before_login_witness :
  calls (state
    (script {| button := true; login := inl (Exception "INVALID_LOGIN");
               start_date_input := Date 2025 1 1; end_date_input := Date 2025 1 31;
               show_raw_data := false |}
       (script {| button := false; login := inl (Exception "INVALID_LOGIN");
                  start_date_input := Date 2025 1 1;
                  end_date_input := Date 2025 1 31; show_raw_data := false |}
          new_browser).2).2) = [].
Proof.
  apply no_query_before_login; [|reflexivity].
  apply reachable_run, reachable_run, reachable_new.
Defined.
